(** * RFID monitoring dashboard: log parsing and sequence statistics

    A shallow embedding of [parse_uploaded_files] and
    [calculate_sequence_stats] of [rfid_dashboard_cloud.py], and the
    properties of the natural-language specification checked against them.

    Modelling conventions.
    - A Python [str] is the list of its Unicode code points ([list N]); the
      order of [str] is then the lexicographic order of the lists.
    - A Python [float] holding minutes or a percentage is read in two ways.
      The statistics are first written with exact rationals ([Q], compared
      with [==]): what is proved of them holds of the code up to the
      rounding of its doubles.  Module [Doubles] is the same code on
      binary64 numbers, every operation rounded as the code rounds it; it
      shows where rounding makes an exact equality fail.
    - [datetime.strptime] and the pandas [sort_values] are library code; the
      functions take them as parameters, and one executable instance of each
      is given to evaluate the functions on concrete inputs.
    - [st.warning] is a side effect: the warnings are collected in a list. *)

From Stdlib Require Import Floats.PrimFloat.
From Stdlib Require Numbers.Cyclic.Int63.Uint63.
From Stdlib Require Import QArith Lqa.
From Stdlib Require Import String Ascii.
From stdpp Require Import gmap list sorting.

Local Open Scope Z_scope.

(** ** Python strings *)

Abbreviation str := (list N).

(** A string literal of the source, as a list of code points (ASCII only). *)
Fixpoint py (s : string) : str :=
  match s with
  | EmptyString => []
  | String a s' => N_of_ascii a :: py s'
  end.

Definition NL : N := 10.
Definition CR : N := 13.
Definition COMMA : N := 44.

(** [str.isspace] on one character, as used by [str.strip()]. *)
Definition isspace (c : N) : bool :=
  ((9 <=? c) && (c <=? 13) || (28 <=? c) && (c <=? 32)
   || (c =? 133) || (c =? 160) || (c =? 5760)
   || (8192 <=? c) && (c <=? 8202)
   || (c =? 8232) || (c =? 8233) || (c =? 8239) || (c =? 8287)
   || (c =? 12288))%N.

Fixpoint lstrip (s : str) : str :=
  match s with
  | [] => []
  | c :: s' => if isspace c then lstrip s' else s
  end.

Definition rstrip (s : str) : str := rev (lstrip (rev s)).

(** [s.strip()] *)
Definition strip (s : str) : str := rstrip (lstrip s).

(** [s.split(sep)] for a separator of one character. *)
Fixpoint split (sep : N) (s : str) : list str :=
  match s with
  | [] => [[]]
  | c :: s' =>
      if (c =? sep)%N then [] :: split sep s'
      else match split sep s' with
           | [] => [[c]]
           | w :: ws => (c :: w) :: ws
           end
  end.

(** [s.replace('\r', '')] *)
Definition remove_cr (s : str) : str :=
  List.filter (fun c => negb (c =? CR)%N) s.

(** Truth value of a string: [if s], [if not s]. *)
Definition truthy (s : str) : bool :=
  match s with [] => false | _ :: _ => true end.

(** Comparison of two strings, as [<] and [==] of [str] do it. *)
Fixpoint str_compare (a b : str) : comparison :=
  match a, b with
  | [], [] => Eq
  | [], _ :: _ => Lt
  | _ :: _, [] => Gt
  | x :: a', y :: b' =>
      match (x ?= y)%N with
      | Eq => str_compare a' b'
      | c => c
      end
  end.

Definition str_ltb (a b : str) : bool :=
  match str_compare a b with Lt => true | _ => false end.

Definition str_eqb (a b : str) : bool :=
  match str_compare a b with Eq => true | _ => false end.

Definition str_le (a b : str) : Prop := str_compare a b <> Gt.

(** ** Sorting

    [list.sort(key=...)] is stable: elements with equal keys keep their
    order.  Insertion from the right gives that order. *)

Section StableSort.
Context {A : Type} (ltb : A -> A -> bool).

Fixpoint insert_sorted (x : A) (l : list A) : list A :=
  match l with
  | [] => [x]
  | y :: l' => if ltb y x then y :: insert_sorted x l' else x :: l
  end.

Definition stable_sort (l : list A) : list A :=
  foldr insert_sorted [] l.

(** [x <= y] for the order of the sort: [y] is not before [x]. *)
Definition le_of : relation A := fun x y => ltb y x = false.
End StableSort.

(** ** datetime *)

Record datetime := mk_datetime {
  year : Z; month : Z; day : Z; hour : Z; minute : Z; second : Z
}.

Definition is_leap (y : Z) : bool :=
  (y mod 4 =? 0) && (negb (y mod 100 =? 0) || (y mod 400 =? 0)).

Definition days_in_month (y m : Z) : Z :=
  if m =? 2 then (if is_leap y then 29 else 28)
  else if (m =? 4) || (m =? 6) || (m =? 9) || (m =? 11) then 30
  else 31.

Definition days_before_year (y : Z) : Z :=
  let y1 := y - 1 in y1 * 365 + y1 / 4 - y1 / 100 + y1 / 400.

Definition days_before_month (y m : Z) : Z :=
  foldr (fun k acc => days_in_month y k + acc) 0
        (List.filter (fun k => k <? m) [1; 2; 3; 4; 5; 6; 7; 8; 9; 10; 11; 12]).

(** [date.toordinal()] *)
Definition ymd2ord (y m d : Z) : Z :=
  days_before_year y + days_before_month y m + d.

(** Seconds from 0001-01-01 00:00:00 (shifted by one day) to [d]; the
    difference of two of them is [(d2 - d1).total_seconds()]. *)
Definition dt_seconds (d : datetime) : Z :=
  ((ymd2ord (year d) (month d) (day d) * 24 + hour d) * 60 + minute d) * 60
  + second d.

(** [(d2 - d1).total_seconds()] *)
Definition total_seconds (d2 d1 : datetime) : Z := dt_seconds d2 - dt_seconds d1.

Definition digit_char (n : Z) : N := (48 + Z.to_N n)%N.

Definition pad2 (n : Z) : str := [digit_char (n / 10 mod 10); digit_char (n mod 10)].

Definition pad4 (n : Z) : str :=
  [digit_char (n / 1000 mod 10); digit_char (n / 100 mod 10)] ++ pad2 n.

Definition SLASH : N := 47.
Definition SPACE : N := 32.
Definition COLON : N := 58.

(** [dt.strftime('%Y/%m/%d %H:%M:%S')].  The year is written with four
    digits, as documented; the C library of some platforms leaves a year
    before 1000 without padding. *)
Definition strftime (d : datetime) : str :=
  pad4 (year d) ++ [SLASH] ++ pad2 (month d) ++ [SLASH] ++ pad2 (day d)
  ++ [SPACE] ++ pad2 (hour d) ++ [COLON] ++ pad2 (minute d) ++ [COLON]
  ++ pad2 (second d).

(** *** An executable [datetime.strptime(_, '%Y%m%d%H%M%S')]

    The regular expression that [_strptime] builds for this format is a
    sequence of six groups, each a list of fixed-width alternatives tried in
    order with backtracking; the match must then cover the whole string and
    the fields must form a valid date.  [None] stands for [ValueError].
    ASCII digits only. *)

Definition char_class := N -> bool.

Definition digits (lo hi : N) : char_class :=
  fun c => ((48 + lo <=? c) && (c <=? 48 + hi))%N.

Definition any_digit : char_class := digits 0 9.

Definition exactly (n : N) : char_class := N.eqb n.

Definition re_Y : list (list char_class) :=
  [[any_digit; any_digit; any_digit; any_digit]].
Definition re_m : list (list char_class) :=
  [[exactly 49; digits 0 2]; [exactly 48; digits 1 9]; [digits 1 9]].
Definition re_d : list (list char_class) :=
  [[exactly 51; digits 0 1]; [digits 1 2; any_digit]; [exactly 48; digits 1 9];
   [digits 1 9]; [exactly 32; digits 1 9]].
Definition re_H : list (list char_class) :=
  [[exactly 50; digits 0 3]; [digits 0 1; any_digit]; [any_digit]].
Definition re_M : list (list char_class) :=
  [[digits 0 5; any_digit]; [any_digit]].
Definition re_S : list (list char_class) :=
  [[exactly 54; digits 0 1]; [digits 0 5; any_digit]; [any_digit]].

Fixpoint match_alt (a : list char_class) (s : str) : option (str * str) :=
  match a with
  | [] => Some ([], s)
  | p :: a' =>
      match s with
      | [] => None
      | c :: s' =>
          if p c then
            match match_alt a' s' with
            | Some (m, r) => Some (c :: m, r)
            | None => None
            end
          else None
      end
  end.

Fixpoint match_groups (gs : list (list (list char_class))) (s : str)
  : option (list str * str) :=
  match gs with
  | [] => Some ([], s)
  | g :: gs' =>
      (fix try (alts : list (list char_class)) : option (list str * str) :=
         match alts with
         | [] => None
         | a :: alts' =>
             match match_alt a s with
             | Some (m, r) =>
                 match match_groups gs' r with
                 | Some (ms, r') => Some (m :: ms, r')
                 | None => try alts'
                 end
             | None => try alts'
             end
         end) g
  end.

(** [int(s)] on a matched group: digits, possibly after a space. *)
Definition int_of (s : str) : Z :=
  fold_left (fun acc c => if any_digit c then acc * 10 + (Z.of_N c - 48) else acc)
            s 0.

Definition strptime_YmdHMS (s : str) : option datetime :=
  match match_groups [re_Y; re_m; re_d; re_H; re_M; re_S] s with
  | Some ([gY; gm; gd; gH; gM; gS], []) =>
      let y := int_of gY in
      let mo := int_of gm in
      let dd := int_of gd in
      let ss := int_of gS in
      if (1 <=? y) && (1 <=? dd) && (dd <=? days_in_month y mo) && (ss <=? 59)
      then Some (mk_datetime y mo dd (int_of gH) (int_of gM) ss)
      else None
  | _ => None
  end.

(** ** parse_uploaded_files *)

(** One uploaded file, after [uploaded_file.read().decode('utf-8')]: the
    entry of [file_data].  The decoding happens before the loop over the
    files and outside its [try]; the model starts from the decoded text. *)
Record file_info := mk_file { f_name : str; f_content : str }.

(** One entry of [all_data]. *)
Record Event := mk_event {
  e_filename : str;
  e_timestamp : str;
  e_datetime : datetime;
  e_sequence : str;
  e_tag_count : nat;
  e_tag_ids : list str;
  e_raw_timestamp : str
}.

(** One entry of a list of [tag_histories]. *)
Record history_entry := mk_entry {
  h_timestamp : str;
  h_datetime : datetime;
  h_sequence : str;
  h_filename : str
}.

(** The exceptions that the body of the [try] can raise. *)
Inductive exn := IndexError | UnboundLocalError.

(** [st.warning(f"... {filename} ...: {e}")] *)
Record warning := mk_warning { w_filename : str; w_error : exn }.

(** The variables of [parse_uploaded_files] that live across the iterations
    of the loop over [file_data].  [dt] is a local variable of the function:
    it is unbound ([None]) until a [strptime] succeeds and keeps its value
    from one file to the next. *)
Record parse_state := mk_state {
  all_data : list Event;
  tag_histories : gmap str (list history_entry);
  dt : option datetime;
  warnings : list warning
}.

Definition initial_state : parse_state := mk_state [] ∅ None [].

Section Parse.
(** [datetime.strptime(_, '%Y%m%d%H%M%S')]; [None] when it raises. *)
Variable strptime : str -> option datetime.

(** The loop [for row in data_rows].  [tag_histories] is updated in place,
    so its updates survive an exception; [tag_ids] is lost with it. *)
Fixpoint scan_rows (formatted_time : str) (dt : option datetime)
    (sequence filename : str) (data_rows : list str)
    (tag_ids : list str) (th : gmap str (list history_entry))
  : gmap str (list history_entry) * (exn + list str) :=
  match data_rows with
  | [] => (th, inr tag_ids)
  | row :: rest =>
      if truthy (strip row) then
        let columns := split COMMA row in
        if (4 <? length columns)%nat && truthy (nth 4 columns []) then
          let tag_id := remove_cr (nth 4 columns []) in
          let tag_ids := tag_ids ++ [tag_id] in
          let th :=
            match th !! tag_id with
            | None => <[tag_id := []]> th
            | Some _ => th
            end in
          match dt with
          | None => (th, inl UnboundLocalError)
          | Some d =>
              let entry := mk_entry formatted_time d sequence filename in
              scan_rows formatted_time dt sequence filename rest tag_ids
                (<[tag_id := (th !!! tag_id) ++ [entry]]> th)
          end
        else scan_rows formatted_time dt sequence filename rest tag_ids th
      else scan_rows formatted_time dt sequence filename rest tag_ids th
  end.

(** The body of the [try] for one file: the new state, and the exception
    that left the body, if any ([continue] leaves it without one). *)
Definition try_file (st : parse_state) (file : file_info)
  : parse_state * option exn :=
  let filename := f_name file in
  let content := strip (f_content file) in
  if negb (truthy content) then (st, None)
  else
    let lines := split NL content in
    match lines with
    | [] => (st, Some IndexError)
    | line0 :: data_rows =>
        let headers := split COMMA line0 in
        if (length headers <? 4)%nat then (st, None)
        else
          let timestamp := nth 0 headers [] in
          let sequence := nth 3 headers [] in
          let '(formatted_time, dt) :=
            match strptime timestamp with
            | Some d => (strftime d, Some d)
            | None => (timestamp, dt st)
            end in
          match scan_rows formatted_time dt sequence filename data_rows []
                          (tag_histories st) with
          | (th, inl e) =>
              (mk_state (all_data st) th dt (warnings st), Some e)
          | (th, inr tag_ids) =>
              match dt with
              | None =>
                  (mk_state (all_data st) th dt (warnings st),
                   Some UnboundLocalError)
              | Some d =>
                  let ev := mk_event filename formatted_time d sequence
                              (length tag_ids) tag_ids timestamp in
                  (mk_state (all_data st ++ [ev]) th dt (warnings st), None)
              end
          end
    end.

(** One iteration of [for file_info in file_data], with its [except]. *)
Definition process_file (st : parse_state) (file : file_info) : parse_state :=
  match try_file st file with
  | (st', None) => st'
  | (st', Some e) =>
      mk_state (all_data st') (tag_histories st') (dt st')
               (warnings st' ++ [mk_warning (f_name file) e])
  end.

(** [file_data.sort(key=lambda x: x['name'])] *)
Definition sort_by_name (file_data : list file_info) : list file_info :=
  stable_sort (fun x y => str_ltb (f_name x) (f_name y)) file_data.

(** The final state of the function; it returns
    [(all_data, tag_histories)] and has shown [warnings]. *)
Definition parse_uploaded_files (uploaded_files : list file_info) : parse_state :=
  fold_left process_file (sort_by_name uploaded_files) initial_state.
End Parse.


(** The order in which the files are processed. *)
Definition name_ltb (a b : file_info) : bool := str_ltb (f_name a) (f_name b).

Definition name_le (a b : file_info) : Prop := str_le (f_name a) (f_name b).

(** The header of a file: the fields of the first line of its content. *)
Definition header_fields (file : file_info) : list str :=
  split COMMA (hd [] (split NL (strip (f_content file)))).

(** The content is not blank and its first line has fewer than 4 fields. *)
Definition malformed_header (file : file_info) : bool :=
  truthy (strip (f_content file)) && (length (header_fields file) <? 4)%nat.

(** The content is blank. *)
Definition blank (file : file_info) : bool :=
  negb (truthy (strip (f_content file))).

(** The history entry that an event leaves for each of its tags. *)
Definition entry_of (e : Event) : history_entry :=
  mk_entry (e_timestamp e) (e_datetime e) (e_sequence e) (e_filename e).

(** The history of tag [t] exists and holds [entry]. *)
Definition has_entry (th : gmap str (list history_entry)) (entry : history_entry)
    (t : str) : Prop :=
  exists hs, th !! t = Some hs /\ entry ∈ hs.

(** Histories only grow: no tag is removed, and entries are only appended. *)
Definition th_grows (th th' : gmap str (list history_entry)) : Prop :=
  forall t hs, th !! t = Some hs -> exists hs', th' !! t = Some (hs ++ hs').

(** Every tag of every event has the event's entry in its history. *)
Definition tag_fidelity (st : parse_state) : Prop :=
  forall e t, e ∈ all_data st -> t ∈ e_tag_ids e ->
    has_entry (tag_histories st) (entry_of e) t.

(** ** calculate_sequence_stats *)

Definition SEQS : list str := [py "00"; py "01"; py "02"; py "03"; py "04"].

(** The value of [stats[seq]] when the function returns. *)
Record StateStats := mk_stats {
  count : nat;
  percentage : Q;
  total_duration : Q;
  avg_duration : Q;
  time_percentage : Q
}.

(** The value of [stats[seq]] after the first loop. *)
Record StateStats0 := mk_stats0 {
  count0 : nat;
  percentage0 : Q;
  total_duration0 : Q;
  avg_duration0 : Q
}.

Definition Q_of_nat (n : nat) : Q := inject_Z (Z.of_nat n).

(** [(next['datetime'] - cur['datetime']).total_seconds() / 60], in exact
    arithmetic: the quotient is not rounded ([Doubles.minutes_between] is
    the double that the code computes). *)
Definition minutes_between (next cur : Event) : Q :=
  inject_Z (total_seconds (e_datetime next) (e_datetime cur)) / 60.

(** One iteration of [for i in range(len(df))]. *)
Definition duration_step (df : list Event) (seq : str)
    (total_duration : Q) (i : nat) : Q :=
  match df !! i with
  | None => total_duration
  | Some row =>
      if str_eqb (e_sequence row) seq
         && (Z.of_nat i <? Z.of_nat (length df) - 1)
      then
        match df !! (i + 1)%nat with
        | None => total_duration
        | Some next => (total_duration + minutes_between next row)%Q
        end
      else total_duration
  end.

(** [len(df[df['sequence'] == seq])] *)
Definition seq_count (df : list Event) (seq : str) : nat :=
  length (List.filter (fun row => str_eqb (e_sequence row) seq) df).

(** The body of [for seq in ['00', ..., '04']]: the entry [stats[seq]]. *)
Definition seq_stats0 (df : list Event) (seq : str) : StateStats0 :=
  let count := seq_count df seq in
  let total_duration :=
    if (0 <? count)%nat
    then fold_left (duration_step df seq) (List.seq 0%nat (length df)) 0%Q
    else 0%Q in
  mk_stats0 count
    (if (0 <? length df)%nat
     then (Q_of_nat count / Q_of_nat (length df) * 100)%Q else 0%Q)
    total_duration
    (if (0 <? count)%nat then (total_duration / Q_of_nat count)%Q else 0%Q).

(** [sum(stat['total_duration'] for stat in stats.values())] *)
Definition sum_total_duration (stats : list (str * StateStats0)) : Q :=
  fold_left (fun acc kv => (acc + total_duration0 kv.2)%Q) stats 0%Q.

(** The second loop on one entry, in exact arithmetic
    ([Doubles.with_time_percentage] is what the code computes on doubles). *)
Definition with_time_percentage (total_time : Q) (s : StateStats0) : StateStats :=
  mk_stats (count0 s) (percentage0 s) (total_duration0 s) (avg_duration0 s)
    (if Qlt_le_dec 0 total_time
     then (total_duration0 s / total_time * 100)%Q else 0%Q).

Section Stats.
(** [df.sort_values('datetime')]: pandas sorts with an unstable quicksort
    by default, so rows with equal datetimes come in an order that the
    library does not fix.  The function is a parameter; what is known of
    it is stated where it is needed. *)
Variable sort_values : list Event -> list Event.

(** The dictionary returned, as the list of its items in insertion
    order; [[]] is the empty dictionary. *)
Definition calculate_sequence_stats (data : list Event)
  : list (str * StateStats) :=
  match data with
  | [] => []
  | _ :: _ =>
      let df := sort_values data in
      let stats := map (fun seq => (seq, seq_stats0 df seq)) SEQS in
      let total_time := sum_total_duration stats in
      map (fun kv => (kv.1, with_time_percentage total_time kv.2)) stats
  end.
End Stats.

(** [stats[seq]] *)
Definition stats_get (stats : list (str * StateStats)) (seq : str)
  : option StateStats :=
  snd <$> List.find (fun kv => str_eqb kv.1 seq) stats.

(** An instance of [sort_values]: the stable sort by datetime. *)
Definition dt_ltb (a b : Event) : bool :=
  dt_seconds (e_datetime a) <? dt_seconds (e_datetime b).

Definition sort_values_stable (data : list Event) : list Event :=
  stable_sort dt_ltb data.

(** What every [sort_values] does: it permutes the rows and leaves them in
    ascending order of datetime. *)
Definition dt_le (a b : Event) : Prop :=
  dt_seconds (e_datetime a) <= dt_seconds (e_datetime b).

Definition sorts_by_datetime (sort_values : list Event -> list Event) : Prop :=
  forall data, sort_values data ≡ₚ data /\ Sorted dt_le (sort_values data).

(** The part of it that concerns the rows alone. *)
Definition permutes (sort_values : list Event -> list Event) : Prop :=
  forall data, sort_values data ≡ₚ data.

(** ** Vocabulary of the statements about the statistics *)

(** The minutes that the rows of state [seq] add: each row but the last
    adds the gap to the row that follows it. *)
Fixpoint gap_sum (seq : str) (df : list Event) : Q :=
  match df with
  | row :: rest =>
      match rest with
      | next :: _ =>
          ((if str_eqb (e_sequence row) seq then minutes_between next row else 0)
           + gap_sum seq rest)%Q
      | [] => 0%Q
      end
  | [] => 0%Q
  end.

(** The gaps that the rows of state [seq] add, in the order of the frame:
    the gap to the next row, for each row but the last. *)
Fixpoint gaps_of (seq : str) (frame : list Event) : list Q :=
  match frame with
  | row :: rest =>
      match rest with
      | next :: _ =>
          if str_eqb (e_sequence row) seq
          then minutes_between next row :: gaps_of seq rest
          else gaps_of seq rest
      | [] => []
      end
  | [] => []
  end.

(** The sum of a list as the loop adds it up: from 0, in the order of the
    list. *)
Definition sum_in_order (gaps : list Q) : Q := fold_left Qplus gaps 0%Q.

(** The state of the event is one of the five known ones. *)
Definition known_state (e : Event) : Prop := e_sequence e ∈ SEQS.

(** The earliest and the latest datetime of a list of events, in seconds. *)
Definition earliest (data : list Event) : Z :=
  match data with
  | [] => 0
  | e :: rest =>
      foldr (fun x acc => Z.min (dt_seconds (e_datetime x)) acc)
            (dt_seconds (e_datetime e)) rest
  end.

Definition latest (data : list Event) : Z :=
  match data with
  | [] => 0
  | e :: rest =>
      foldr (fun x acc => Z.max (dt_seconds (e_datetime x)) acc)
            (dt_seconds (e_datetime e)) rest
  end.

(** The sums of a field over the states of a returned dictionary. *)
Definition sum_percentage (stats : list (str * StateStats)) : Q :=
  fold_left (fun acc kv => (acc + percentage kv.2)%Q) stats 0%Q.

Definition sum_duration (stats : list (str * StateStats)) : Q :=
  fold_left (fun acc kv => (acc + total_duration kv.2)%Q) stats 0%Q.

(** ** Vocabulary of the statements about the parser *)

(** The file is skipped without an event and without a warning. *)
Definition skipped (file : file_info) : bool :=
  blank file || malformed_header file.

(** [headers[0]] and [headers[3]] of a file. *)
Definition raw_timestamp_of (file : file_info) : str :=
  nth 0 (header_fields file) [].

Definition sequence_of (file : file_info) : str :=
  nth 3 (header_fields file) [].

(** The file is read and its header timestamp is parsed. *)
Definition parses (strptime : str -> option datetime) (file : file_info) : bool :=
  negb (skipped file)
  && match strptime (raw_timestamp_of file) with Some _ => true | None => false end.

(** The tag that one data row holds, if any. *)
Definition row_tag (row : str) : list str :=
  if truthy (strip row)
  then
    let columns := split COMMA row in
    if (4 <? length columns)%nat && truthy (nth 4 columns [])
    then [remove_cr (nth 4 columns [])] else []
  else [].

(** The data rows of a file, [lines[1:]], and the tags they hold. *)
Definition file_rows (file : file_info) : list str :=
  tl (split NL (strip (f_content file))).

Definition file_tag_ids (file : file_info) : list str :=
  flat_map row_tag (file_rows file).

(** The entries that the events leave in the history of tag [t]: one per
    occurrence of [t] in an event, in the order of the events. *)
Definition entries_of (t : str) (e : Event) : list history_entry :=
  map (fun _ => entry_of e) (List.filter (fun x => str_eqb x t) (e_tag_ids e)).

Definition history_of (t : str) (events : list Event) : list history_entry :=
  flat_map (entries_of t) events.

(** The files that are read, in the order of processing. *)
Definition read_files (files : list file_info) : list file_info :=
  List.filter (fun file => negb (skipped file)) (sort_by_name files).

(** The files before the first one whose timestamp is parsed, and the files
    from that one on. *)
Fixpoint before_first_parse (strptime : str -> option datetime)
    (files : list file_info) : list file_info :=
  match files with
  | [] => []
  | file :: rest =>
      if parses strptime file then []
      else file :: before_first_parse strptime rest
  end.

Fixpoint from_first_parse (strptime : str -> option datetime)
    (files : list file_info) : list file_info :=
  match files with
  | [] => []
  | file :: rest =>
      if parses strptime file then files
      else from_first_parse strptime rest
  end.

(** The event [e] shows the header and the tags of the file [file]. *)
Definition event_of_file (strptime : str -> option datetime)
    (e : Event) (file : file_info) : Prop :=
  skipped file = false
  /\ e_filename e = f_name file
  /\ e_raw_timestamp e = raw_timestamp_of file
  /\ e_sequence e = sequence_of file
  /\ e_tag_ids e = file_tag_ids file
  /\ e_tag_count e = length (file_tag_ids file)
  /\ match strptime (raw_timestamp_of file) with
     | Some d => e_datetime e = d /\ e_timestamp e = strftime d
     | None => e_timestamp e = raw_timestamp_of file
     end.

(** ** get_sequence_info *)

(** A string literal with characters beyond ASCII: the code points that
    its UTF-8 bytes encode. *)
Definition utf8_step (st : N * N * str) (b : N) : N * N * str :=
  let '(need, acc, out) := st in
  if (need =? 0)%N then
    if (b <? 128)%N then (0%N, 0%N, out ++ [b])
    else if (b <? 224)%N then (1%N, (b - 192)%N, out)
    else if (b <? 240)%N then (2%N, (b - 224)%N, out)
    else (3%N, (b - 240)%N, out)
  else
    let acc' := (acc * 64 + (b - 128))%N in
    if (need =? 1)%N then (0%N, 0%N, out ++ [acc'])
    else ((need - 1)%N, acc', out).

Definition pyu (s : string) : str :=
  (fold_left utf8_step (py s) (0%N, 0%N, [])).2.

(** A value of [sequence_map]. *)
Record sequence_info := mk_info { label : str; color : str; bg_color : str }.

Definition sequence_map : gmap str sequence_info :=
  list_to_map
    [(py "00", mk_info (pyu "待機中") (py "#6B7280") (py "#F3F4F6"));
     (py "01", mk_info (pyu "初期化") (py "#2563EB") (py "#DBEAFE"));
     (py "02", mk_info (pyu "加工準備") (py "#D97706") (py "#FEF3C7"));
     (py "03", mk_info (pyu "加工中") (py "#EA580C") (py "#FED7AA"));
     (py "04", mk_info (pyu "加工完了") (py "#16A34A") (py "#DCFCE7"))].

(** The entry of an unknown state. *)
Definition unknown_info : sequence_info :=
  mk_info (pyu "不明") (py "#DC2626") (py "#FEE2E2").

(** [sequence_map.get(seq, {...})] *)
Definition get_sequence_info (seq : str) : sequence_info :=
  default unknown_info (sequence_map !! seq).

(** ** The summary and the tag views of main *)

(** [seq_stats.get(seq, {}).get('total_duration', 0)] *)
Definition get_total_duration (seq_stats : list (str * StateStats)) (seq : str) : Q :=
  match stats_get seq_stats seq with
  | Some s => total_duration s
  | None => 0%Q
  end.

(** [stats[seq]['time_percentage']] of a state that the dictionary has, 0
    otherwise; and the sum of this field over the dictionary. *)
Definition get_time_percentage (seq_stats : list (str * StateStats)) (seq : str) : Q :=
  match stats_get seq_stats seq with
  | Some s => time_percentage s
  | None => 0%Q
  end.

Definition sum_time_percentage (stats : list (str * StateStats)) : Q :=
  fold_left (fun acc kv => (acc + time_percentage kv.2)%Q) stats 0%Q.

Definition working_time (seq_stats : list (str * StateStats)) : Q :=
  (get_total_duration seq_stats (py "03") + get_total_duration seq_stats (py "04"))%Q.

Definition waiting_time (seq_stats : list (str * StateStats)) : Q :=
  (get_total_duration seq_stats (py "00") + get_total_duration seq_stats (py "01"))%Q.

(** [(working_time / total_time * 100) if total_time > 0 else 0], with
    [total_time = sum(stats['total_duration'] for stats in seq_stats.values())]. *)
Definition efficiency (seq_stats : list (str * StateStats)) : Q :=
  let total_time := sum_duration seq_stats in
  if Qlt_le_dec 0 total_time
  then (working_time seq_stats / total_time * 100)%Q else 0%Q.

(** [latest = data[-1] if data else {}]; [None] is the empty dictionary. *)
Definition latest_event (data : list Event) : option Event := last data.

(** [latest.get('sequence', '00')] *)
Definition current_seq (data : list Event) : str :=
  match latest_event data with
  | Some e => e_sequence e
  | None => py "00"
  end.

(** [tag_id[:8] + "..." + tag_id[-8:] if len(tag_id) > 20 else tag_id] *)
Definition display_tag (tag_id : str) : str :=
  if (20 <? length tag_id)%nat
  then take 8 tag_id ++ py "..." ++ drop (length tag_id - 8) tag_id
  else tag_id.

(** [sorted(tag_histories.items(), key=lambda x: len(x[1]), reverse=True)]
    on the items of the dictionary in their order; a sort with [reverse]
    keeps the order of the items of equal key. *)
Definition more_entries (a b : str * list history_entry) : bool :=
  (length b.2 <? length a.2)%nat.

Definition sorted_tags (items : list (str * list history_entry))
  : list (str * list history_entry) :=
  stable_sort more_entries items.

(** [sorted_tags[:5]] *)
Definition top_tags (items : list (str * list history_entry))
  : list (str * list history_entry) :=
  take 5 (sorted_tags items).

(** ** The statistics on doubles

    [calculate_sequence_stats] and the summary of main once more, with the
    numbers of the source: a Python [float] is a binary64 number and every
    operation rounds to the nearest one.  The integers that the code turns
    into floats (seconds, counts, 60 and 100) are far below 2^53 and are
    converted exactly. *)

Module Doubles.

(** [float(z)] *)
Definition float_of_Z (z : Z) : float :=
  if z <? 0
  then PrimFloat.opp (PrimFloat.of_uint63 (Uint63.of_Z (- z)))
  else PrimFloat.of_uint63 (Uint63.of_Z z).

Definition float_of_nat (n : nat) : float := float_of_Z (Z.of_nat n).

Record StateStats := mk_stats {
  count : nat;
  percentage : float;
  total_duration : float;
  avg_duration : float;
  time_percentage : float
}.

Record StateStats0 := mk_stats0 {
  count0 : nat;
  percentage0 : float;
  total_duration0 : float;
  avg_duration0 : float
}.

(** [(next['datetime'] - cur['datetime']).total_seconds() / 60] *)
Definition minutes_between (next cur : Event) : float :=
  (float_of_Z (total_seconds (e_datetime next) (e_datetime cur)) / 60)%float.

(** One iteration of [for i in range(len(df))]. *)
Definition duration_step (df : list Event) (seq : str)
    (total_duration : float) (i : nat) : float :=
  match df !! i with
  | None => total_duration
  | Some row =>
      if str_eqb (e_sequence row) seq
         && (Z.of_nat i <? Z.of_nat (length df) - 1)
      then
        match df !! (i + 1)%nat with
        | None => total_duration
        | Some next => (total_duration + minutes_between next row)%float
        end
      else total_duration
  end.

(** The body of [for seq in ['00', ..., '04']]. *)
Definition seq_stats0 (df : list Event) (seq : str) : StateStats0 :=
  let count := seq_count df seq in
  let total_duration :=
    if (0 <? count)%nat
    then fold_left (duration_step df seq) (List.seq 0%nat (length df)) 0%float
    else 0%float in
  mk_stats0 count
    (if (0 <? length df)%nat
     then (float_of_nat count / float_of_nat (length df) * 100)%float
     else 0%float)
    total_duration
    (if (0 <? count)%nat
     then (total_duration / float_of_nat count)%float else 0%float).

(** [sum(stat['total_duration'] for stat in stats.values())] *)
Definition sum_total_duration (stats : list (str * StateStats0)) : float :=
  fold_left (fun acc kv => (acc + total_duration0 kv.2)%float) stats 0%float.

Definition with_time_percentage (total_time : float) (s : StateStats0)
  : StateStats :=
  mk_stats (count0 s) (percentage0 s) (total_duration0 s) (avg_duration0 s)
    (if PrimFloat.ltb 0 total_time
     then (total_duration0 s / total_time * 100)%float else 0%float).

Definition calculate_sequence_stats (sort_values : list Event -> list Event)
    (data : list Event) : list (str * StateStats) :=
  match data with
  | [] => []
  | _ :: _ =>
      let df := sort_values data in
      let stats := map (fun seq => (seq, seq_stats0 df seq)) SEQS in
      let total_time := sum_total_duration stats in
      map (fun kv => (kv.1, with_time_percentage total_time kv.2)) stats
  end.

(** [stats[seq]] *)
Definition stats_get (stats : list (str * StateStats)) (seq : str)
  : option StateStats :=
  snd <$> List.find (fun kv => str_eqb kv.1 seq) stats.

(** The sums of main over the dictionary. *)
Definition sum_duration (stats : list (str * StateStats)) : float :=
  fold_left (fun acc kv => (acc + total_duration kv.2)%float) stats 0%float.

Definition sum_time_percentage (stats : list (str * StateStats)) : float :=
  fold_left (fun acc kv => (acc + time_percentage kv.2)%float) stats 0%float.

(** [(latest - earliest).total_seconds() / 60] *)
Definition span_minutes (data : list Event) : float :=
  (float_of_Z (latest data - earliest data) / 60)%float.

End Doubles.

(** ** Sample inputs *)

(** The content of a file from its lines. *)
Fixpoint join_lines (lines : list str) : str :=
  match lines with
  | [] => []
  | [line] => line
  | line :: rest => line ++ NL :: join_lines rest
  end.

(** Scenario A of the specification: one file of a single line. *)
Definition scenario_A : str :=
  py "20250218080534,0001,6C,02,A0250212154136343032353031303235".

(** A header whose timestamp is not a date. *)
Definition file_notadate (name : string) : file_info :=
  mk_file (py name) (py "notadate,0001,6C,03").

(** A header of three fields. *)
Definition file_short : file_info := mk_file (py "bad.csv") (py "a,b,c").

(** Two snapshots ten seconds apart, with any name and state. *)
Definition file_0534 (name sequence : string) : file_info :=
  mk_file (py name) (py "20250218080534,0001,6C," ++ py sequence).

Definition file_0544 (name sequence : string) : file_info :=
  mk_file (py name) (py "20250218080544,0001,6C," ++ py sequence).

(** A snapshot with two tags. *)
Definition file_tags : file_info :=
  mk_file (py "t.csv")
    (join_lines [py "20250218080534,0001,6C,03,";
                 py "20250218080534,0001,6C,03,TAG1";
                 py "20250218080534,0001,6C,03,TAG2"]).

Definition dt_0534 : datetime := mk_datetime 2025 2 18 8 5 34.
Definition dt_0544 : datetime := mk_datetime 2025 2 18 8 5 44.

(** The events of two files whose names sort against their timestamps:
    [a.csv] is ten seconds later than [b.csv]. *)
Definition events_out_of_order : list Event :=
  all_data (parse_uploaded_files strptime_YmdHMS
              [file_0544 "a.csv" "00"; file_0534 "b.csv" "03"]).

(** A snapshot of one line. *)
Definition snapshot (name timestamp sequence : string) : file_info :=
  mk_file (py name) (py timestamp ++ py ",0001,6C," ++ py sequence).

(** Three events with gaps of 6 and 12 seconds, in the states 00, 01, 02. *)
Definition events_gaps_6_12 : list Event :=
  all_data (parse_uploaded_files strptime_YmdHMS
              [snapshot "a.csv" "20250218080534" "00";
               snapshot "b.csv" "20250218080540" "01";
               snapshot "c.csv" "20250218080552" "02"]).

(** Three events ten seconds apart; the first has none of the five states. *)
Definition events_unknown_gap : list Event :=
  all_data (parse_uploaded_files strptime_YmdHMS
              [snapshot "a.csv" "20250218080534" "05";
               snapshot "b.csv" "20250218080544" "03";
               snapshot "c.csv" "20250218080554" "04"]).

(** The event of one file whose state is none of the five. *)
Definition events_unknown_state : list Event :=
  all_data (parse_uploaded_files strptime_YmdHMS [file_0534 "a.csv" "05"]).

(** * Properties *)

(** ** The library models on examples *)

Example strptime_ok :
  strptime_YmdHMS (py "20250218080534") = Some (mk_datetime 2025 2 18 8 5 34).
Proof. reflexivity. Qed.

Example strptime_short :
  strptime_YmdHMS (py "2025021808053") = Some (mk_datetime 2025 2 18 8 5 3).
Proof. reflexivity. Qed.

Example strptime_bad : strptime_YmdHMS (py "notadate") = None.
Proof. reflexivity. Qed.

Example strptime_feb30 : strptime_YmdHMS (py "20250230080534") = None.
Proof. reflexivity. Qed.

Example strftime_ok :
  strftime (mk_datetime 2025 2 18 8 5 34) = py "2025/02/18 08:05:34".
Proof. reflexivity. Qed.

Example ymd2ord_ok : ymd2ord 2025 2 18 = 739300.
Proof. reflexivity. Qed.


(** ** The order of strings *)

Lemma str_compare_eq (a b : str) : str_compare a b = Eq <-> a = b.
Proof.
  revert b. induction a as [|x a IH]; intros [|y b]; simpl; try (split; congruence).
  destruct (N.compare_spec x y) as [->|Hlt|Hgt].
  - rewrite IH. split; congruence.
  - split; [discriminate | intros [= -> _]; lia].
  - split; [discriminate | intros [= -> _]; lia].
Qed.

Lemma str_compare_refl (a : str) : str_compare a a = Eq.
Proof. by apply str_compare_eq. Qed.

Lemma str_compare_antisym (a b : str) :
  str_compare b a = CompOpp (str_compare a b).
Proof.
  revert b. induction a as [|x a IH]; intros [|y b]; simpl; try done.
  rewrite (N.compare_antisym x y).
  destruct (x ?= y)%N; simpl; auto.
Qed.

Lemma str_compare_trans (c : comparison) (a b d : str) :
  str_compare a b = c -> str_compare b d = c -> str_compare a d = c.
Proof.
  revert b d. induction a as [|x a IH]; intros [|y b] [|z d]; simpl;
    try congruence.
  destruct (x ?= y)%N eqn:Hxy; destruct (y ?= z)%N eqn:Hyz;
    try (intros <-; congruence).
  - apply N.compare_eq_iff in Hxy, Hyz. subst. rewrite N.compare_refl. apply IH.
  - apply N.compare_eq_iff in Hxy. subst. by rewrite Hyz.
  - apply N.compare_eq_iff in Hxy. subst. by rewrite Hyz.
  - apply N.compare_eq_iff in Hyz. subst. by rewrite Hxy.
  - intros <- _. rewrite N.compare_lt_iff in Hxy, Hyz.
    assert ((x ?= z)%N = Lt) as -> by (apply N.compare_lt_iff; lia). done.
  - apply N.compare_eq_iff in Hyz. subst. by rewrite Hxy.
  - intros <- _. rewrite N.compare_gt_iff in Hxy, Hyz.
    assert ((x ?= z)%N = Gt) as -> by (apply N.compare_gt_iff; lia). done.
Qed.

Lemma str_eqb_eq (a b : str) : str_eqb a b = true <-> a = b.
Proof.
  unfold str_eqb. rewrite <- str_compare_eq.
  destruct (str_compare a b); split; congruence.
Qed.

Lemma str_eqb_refl (a : str) : str_eqb a a = true.
Proof. by apply str_eqb_eq. Qed.

Lemma str_eqb_neq (a b : str) : str_eqb a b = false <-> a <> b.
Proof.
  rewrite <- str_eqb_eq. destruct (str_eqb a b); split; congruence.
Qed.

Lemma str_ltb_asym (a b : str) : str_ltb a b = true -> str_ltb b a = false.
Proof.
  unfold str_ltb. rewrite (str_compare_antisym a b).
  destruct (str_compare a b); simpl; congruence.
Qed.

(** [a <= b] and [b <= d] give [a <= d], with [x <= y] read as [not (y < x)]. *)
Lemma str_ltb_le_trans (a b d : str) :
  str_ltb b a = false -> str_ltb d b = false -> str_ltb d a = false.
Proof.
  unfold str_ltb. rewrite (str_compare_antisym a b), (str_compare_antisym b d),
    (str_compare_antisym a d).
  destruct (str_compare a b) eqn:Hab; simpl; try congruence; intros _;
    destruct (str_compare b d) eqn:Hbd; simpl; try congruence; intros _.
  - apply str_compare_eq in Hab, Hbd. subst. by rewrite str_compare_refl.
  - apply str_compare_eq in Hab. subst. by rewrite Hbd.
  - apply str_compare_eq in Hbd. subst. by rewrite Hab.
  - by rewrite (str_compare_trans Lt a b d).
Qed.

Lemma str_ltb_antisym (a b : str) :
  str_ltb a b = false -> str_ltb b a = false -> a = b.
Proof.
  unfold str_ltb. rewrite (str_compare_antisym a b).
  destruct (str_compare a b) eqn:H; simpl; try congruence.
  intros _ _. by apply str_compare_eq.
Qed.

Lemma split_nonempty (sep : N) (s : str) : split sep s <> [].
Proof.
  destruct s as [|c s]; simpl; [done|].
  destruct (c =? sep)%N; [done|]. by destruct (split sep s).
Qed.

(** ** The stable sort *)

Section StableSortFacts.
Context {A : Type} (ltb : A -> A -> bool).
Hypothesis ltb_asym : forall x y, ltb x y = true -> ltb y x = false.
Hypothesis le_trans :
  forall x y z, ltb y x = false -> ltb z y = false -> ltb z x = false.

Lemma insert_sorted_perm x l : insert_sorted ltb x l ≡ₚ x :: l.
Proof.
  induction l as [|y l IH]; simpl; [done|].
  destruct (ltb y x); [|done]. rewrite IH. apply Permutation_swap.
Qed.

Lemma stable_sort_perm l : stable_sort ltb l ≡ₚ l.
Proof.
  induction l as [|x l IH]; simpl; [done|].
  rewrite insert_sorted_perm. by rewrite IH.
Qed.

Lemma insert_sorted_sorted x l :
  StronglySorted (le_of ltb) l -> StronglySorted (le_of ltb) (insert_sorted ltb x l).
Proof.
  induction 1 as [|y l Hl IH Hy]; simpl.
  - repeat constructor.
  - destruct (ltb y x) eqn:Hyx.
    + constructor; [done|].
      rewrite insert_sorted_perm. constructor; [|done].
      unfold le_of. by apply ltb_asym.
    + constructor; [by constructor|].
      constructor; [done|].
      eapply Forall_impl; [exact Hy|]. unfold le_of. intros z Hz.
      by eapply le_trans.
Qed.

Lemma stable_sort_sorted l : StronglySorted (le_of ltb) (stable_sort ltb l).
Proof.
  induction l as [|x l IH]; simpl; [constructor|].
  by apply insert_sorted_sorted.
Qed.

(** Removing elements commutes with the stable sort. *)
Lemma filter_insert_sorted (p : A -> bool) x l :
  StronglySorted (le_of ltb) l ->
  List.filter p (insert_sorted ltb x l)
  = if p x then insert_sorted ltb x (List.filter p l) else List.filter p l.
Proof.
  induction 1 as [|y l Hl IH Hy]; simpl.
  - by destruct (p x).
  - destruct (ltb y x) eqn:Hyx; simpl.
    + rewrite IH. destruct (p y), (p x); simpl; try done. by rewrite Hyx.
    + destruct (p x) eqn:Hpx; simpl; rewrite ?Hpx; [|done].
      destruct (p y) eqn:Hpy; simpl; [by rewrite Hyx|].
      assert (Hall : Forall (le_of ltb x) l).
      { eapply Forall_impl; [exact Hy|]. unfold le_of. intros z Hz.
        by eapply le_trans. }
      clear -Hall. induction Hall as [|z l Hz Hall IH]; simpl; [done|].
      destruct (p z); simpl; [|done]. unfold le_of in Hz. by rewrite Hz.
Qed.

Lemma filter_stable_sort (p : A -> bool) l :
  List.filter p (stable_sort ltb l) = stable_sort ltb (List.filter p l).
Proof.
  induction l as [|x l IH]; simpl; [done|].
  rewrite filter_insert_sorted by apply stable_sort_sorted.
  rewrite IH. by destruct (p x).
Qed.

(** When no two distinct elements are equal in the order, the result does
    not depend on the order of the input. *)
Lemma stable_sort_unique l1 l2 :
  (forall x y, x ∈ l1 -> y ∈ l1 -> ltb x y = false -> ltb y x = false -> x = y) ->
  l1 ≡ₚ l2 -> stable_sort ltb l1 = stable_sort ltb l2.
Proof.
  intros Hanti Hperm.
  apply (StronglySorted_unique_strong (le_of ltb));
    [|apply stable_sort_sorted..|by rewrite !stable_sort_perm].
  intros x y Hx Hy Hxy Hyx.
  rewrite stable_sort_perm in Hx. rewrite stable_sort_perm, <- Hperm in Hy.
  by apply Hanti.
Qed.
End StableSortFacts.

(** ** The files in the order of processing *)

Lemma str_le_ltb (a b : str) : str_le a b <-> str_ltb b a = false.
Proof.
  unfold str_le, str_ltb. rewrite (str_compare_antisym a b).
  destruct (str_compare a b); simpl; split; congruence.
Qed.

Lemma name_ltb_asym x y : name_ltb x y = true -> name_ltb y x = false.
Proof. apply str_ltb_asym. Qed.

Lemma name_le_trans x y z :
  name_ltb y x = false -> name_ltb z y = false -> name_ltb z x = false.
Proof. apply str_ltb_le_trans. Qed.

Lemma sort_by_name_perm files : sort_by_name files ≡ₚ files.
Proof. apply stable_sort_perm. Qed.

Lemma StronglySorted_mono {A} (R1 R2 : relation A) (l : list A) :
  (forall x y, R1 x y -> R2 x y) -> StronglySorted R1 l -> StronglySorted R2 l.
Proof.
  intros HR. induction 1 as [|x l Hl IH Hx]; constructor; [done|].
  eapply Forall_impl; [exact Hx|]. auto.
Qed.

Lemma sort_by_name_sorted files : StronglySorted name_le (sort_by_name files).
Proof.
  eapply StronglySorted_mono;
    [|apply (stable_sort_sorted name_ltb name_ltb_asym name_le_trans)].
  intros x y. unfold le_of, name_le, name_ltb. by rewrite str_le_ltb.
Qed.

Lemma NoDup_map_inj {A B} (f : A -> B) (l : list A) x y :
  NoDup (map f l) -> x ∈ l -> y ∈ l -> f x = f y -> x = y.
Proof.
  induction l as [|z l IH]; simpl; intros Hnd Hx Hy Hxy; [by inv Hx|].
  apply NoDup_cons in Hnd as [Hz Hnd].
  apply elem_of_cons in Hx as [->|Hx]; apply elem_of_cons in Hy as [->|Hy];
    auto.
  - exfalso. apply Hz. rewrite Hxy. by apply (list_elem_of_fmap_2 f).
  - exfalso. apply Hz. rewrite <- Hxy. by apply (list_elem_of_fmap_2 f).
Qed.

Lemma sort_by_name_unique files files' :
  NoDup (map f_name files) -> files ≡ₚ files' ->
  sort_by_name files = sort_by_name files'.
Proof.
  intros Hnd Hperm.
  apply (stable_sort_unique name_ltb name_ltb_asym name_le_trans); [|done].
  intros x y Hx Hy Hxy Hyx. apply (NoDup_map_inj f_name files); auto.
  by apply str_ltb_antisym.
Qed.

(** ** Files that are skipped *)

Section ParseFacts.
Variable strptime : str -> option datetime.

Lemma process_file_malformed st file :
  malformed_header file = true -> process_file strptime st file = st.
Proof.
  unfold malformed_header, header_fields, process_file, try_file.
  intros [Hc Hh]%andb_true_iff. rewrite Hc. simpl.
  destruct (split NL (strip (f_content file))) as [|line0 rows] eqn:Hs.
  { by apply split_nonempty in Hs. }
  simpl in Hh. by rewrite Hh.
Qed.

Lemma process_file_blank st file :
  blank file = true -> process_file strptime st file = st.
Proof.
  unfold blank, process_file, try_file. intros Hb. by rewrite Hb.
Qed.

Lemma fold_process_filter (skip : file_info -> bool) files st :
  (forall st file, skip file = true -> process_file strptime st file = st) ->
  fold_left (process_file strptime) files st
  = fold_left (process_file strptime)
      (List.filter (fun file => negb (skip file)) files) st.
Proof.
  intros Hskip. revert st.
  induction files as [|file files IH]; intros st; simpl; [done|].
  destruct (skip file) eqn:Hf; simpl.
  - rewrite Hskip by done. apply IH.
  - apply IH.
Qed.

(** The files that a predicate skips can be removed from the batch. *)
Lemma parse_skip (skip : file_info -> bool) files :
  (forall st file, skip file = true -> process_file strptime st file = st) ->
  parse_uploaded_files strptime files
  = parse_uploaded_files strptime
      (List.filter (fun file => negb (skip file)) files).
Proof.
  intros Hskip. unfold parse_uploaded_files, sort_by_name.
  rewrite (fold_process_filter skip) by done.
  rewrite (filter_stable_sort _ name_ltb_asym name_le_trans).
  symmetry. rewrite (fold_process_filter skip) by done.
  rewrite (filter_stable_sort _ name_ltb_asym name_le_trans).
  f_equal. f_equal. induction files as [|f files IH]; simpl; [done|].
  destruct (skip f) eqn:E; simpl; rewrite ?E; simpl; congruence.
Qed.
End ParseFacts.

(** ** Tag histories *)

Lemma th_grows_refl th : th_grows th th.
Proof. intros t hs H. exists []. by rewrite app_nil_r. Qed.

Lemma th_grows_trans th1 th2 th3 :
  th_grows th1 th2 -> th_grows th2 th3 -> th_grows th1 th3.
Proof.
  intros H12 H23 t hs H. destruct (H12 t hs H) as [hs' H'].
  destruct (H23 t _ H') as [hs'' H'']. exists (hs' ++ hs'').
  by rewrite app_assoc.
Qed.

Lemma has_entry_grows th th' entry t :
  th_grows th th' -> has_entry th entry t -> has_entry th' entry t.
Proof.
  intros Hg (hs & Hhs & Hin). destruct (Hg t hs Hhs) as [hs' H'].
  exists (hs ++ hs'). split; [done|]. apply elem_of_app. by left.
Qed.

(** [if tag_id not in tag_histories: tag_histories[tag_id] = []] *)
Lemma th_grows_create (th : gmap str (list history_entry)) (t : str) :
  th_grows th (match th !! t with None => <[t := []]> th | Some _ => th end).
Proof.
  destruct (th !! t) eqn:Ht; [apply th_grows_refl|].
  intros t' hs H. exists []. rewrite app_nil_r.
  rewrite lookup_insert_ne; [done|]. congruence.
Qed.

(** [tag_histories[tag_id].append(entry)] *)
Lemma th_grows_append (th : gmap str (list history_entry)) (t : str) entry :
  th_grows th (<[t := (th !!! t) ++ [entry]]> th).
Proof.
  intros t' hs H. destruct (decide (t = t')) as [<-|Hne].
  - exists [entry]. rewrite lookup_insert_eq.
    by rewrite lookup_total_alt, H.
  - exists []. rewrite app_nil_r. by rewrite lookup_insert_ne.
Qed.

Lemma has_entry_append (th : gmap str (list history_entry)) (t : str) entry :
  has_entry (<[t := (th !!! t) ++ [entry]]> th) entry t.
Proof.
  exists ((th !!! t) ++ [entry]). rewrite lookup_insert_eq. split; [done|].
  apply elem_of_app. right. by apply list_elem_of_singleton.
Qed.

Lemma scan_rows_grows ft dt sequence filename data_rows tag_ids th th' r :
  scan_rows ft dt sequence filename data_rows tag_ids th = (th', r) ->
  th_grows th th'.
Proof.
  revert tag_ids th.
  induction data_rows as [|row rest IH]; intros tag_ids th; simpl.
  - intros [= <- _]. apply th_grows_refl.
  - destruct (truthy (strip row)); [|apply IH].
    destruct ((4 <? length (split COMMA row))%nat
              && truthy (nth 4 (split COMMA row) [])); [|apply IH].
    destruct dt as [d|].
    + intros H%IH. eapply th_grows_trans; [|exact H].
      eapply th_grows_trans; [apply th_grows_create|apply th_grows_append].
    + intros [= <- _]. apply th_grows_create.
Qed.

Lemma scan_rows_records ft d sequence filename data_rows tag_ids th th' tag_ids' :
  scan_rows ft (Some d) sequence filename data_rows tag_ids th
  = (th', inr tag_ids') ->
  (forall t, t ∈ tag_ids -> has_entry th (mk_entry ft d sequence filename) t) ->
  forall t, t ∈ tag_ids' -> has_entry th' (mk_entry ft d sequence filename) t.
Proof.
  revert tag_ids th.
  induction data_rows as [|row rest IH]; intros tag_ids th; simpl.
  - intros [= <- <-]. auto.
  - destruct (truthy (strip row)); [|apply IH].
    destruct ((4 <? length (split COMMA row))%nat
              && truthy (nth 4 (split COMMA row) [])); [|apply IH].
    intros H Hin. eapply IH; [exact H|].
    intros t [Ht|Ht%list_elem_of_singleton]%elem_of_app.
    + eapply has_entry_grows; [|by apply Hin].
      eapply th_grows_trans; [apply th_grows_create|apply th_grows_append].
    + subst t. apply has_entry_append.
Qed.

(** With [dt] bound the loop over the rows cannot raise. *)
Lemma scan_rows_bound ft d sequence filename data_rows tag_ids th :
  exists th' tag_ids',
    scan_rows ft (Some d) sequence filename data_rows tag_ids th
    = (th', inr tag_ids').
Proof.
  revert tag_ids th.
  induction data_rows as [|row rest IH]; intros tag_ids th; simpl; [eauto|].
  destruct (truthy (strip row)); [|apply IH].
  destruct ((4 <? length (split COMMA row))%nat
            && truthy (nth 4 (split COMMA row) [])); apply IH.
Qed.

(** With [dt] unbound it raises at the first tag; without a tag it returns
    no tag. *)
Lemma scan_rows_unbound ft sequence filename data_rows th th' r :
  scan_rows ft None sequence filename data_rows [] th = (th', r) ->
  r = inl UnboundLocalError \/ r = inr [].
Proof.
  revert th. induction data_rows as [|row rest IH]; intros th; simpl.
  - intros [= _ <-]. by right.
  - destruct (truthy (strip row)); [|apply IH].
    destruct ((4 <? length (split COMMA row))%nat
              && truthy (nth 4 (split COMMA row) [])); [|apply IH].
    intros [= _ <-]. by left.
Qed.

Section TagFidelity.
Variable strptime : str -> option datetime.

Lemma process_file_fidelity st file :
  tag_fidelity st -> tag_fidelity (process_file strptime st file).
Proof.
  intros Hinv. unfold process_file, try_file.
  destruct (truthy (strip (f_content file))); simpl; [|done].
  destruct (split NL (strip (f_content file))) as [|line0 data_rows];
    simpl; [done|].
  destruct (length (split COMMA line0) <? 4)%nat; simpl; [done|].
  set (timestamp := nth 0 (split COMMA line0) []).
  set (sequence := nth 3 (split COMMA line0) []).
  assert (Hkeep : forall ft dt0 th r,
    scan_rows ft dt0 sequence (f_name file) data_rows [] (tag_histories st)
    = (th, r) ->
    forall e t, e ∈ all_data st -> t ∈ e_tag_ids e ->
      has_entry th (entry_of e) t).
  { intros ft dt0 th r Hs e t He Ht.
    eapply has_entry_grows; [by eapply scan_rows_grows|]. by apply Hinv. }
  destruct (strptime timestamp) as [d|].
  - destruct (scan_rows_bound (strftime d) d sequence (f_name file)
                data_rows [] (tag_histories st)) as (th & ids & Hs).
    rewrite Hs. simpl. intros e t [He|He%list_elem_of_singleton]%elem_of_app Ht;
      simpl in *.
    + by eapply Hkeep.
    + subst e. simpl in *. eapply scan_rows_records; [exact Hs| |exact Ht].
      intros t' Ht'. by inv Ht'.
  - destruct (dt st) as [d|] eqn:Hdt.
    + destruct (scan_rows_bound timestamp d sequence (f_name file)
                  data_rows [] (tag_histories st)) as (th & ids & Hs).
      rewrite Hs. simpl.
      intros e t [He|He%list_elem_of_singleton]%elem_of_app Ht; simpl in *.
      * by eapply Hkeep.
      * subst e. simpl in *. eapply scan_rows_records; [exact Hs| |exact Ht].
        intros t' Ht'. by inv Ht'.
    + destruct (scan_rows timestamp None sequence (f_name file) data_rows []
                  (tag_histories st)) as [th r] eqn:Hs.
      destruct r as [e0|ids]; simpl; intros e t He Ht; simpl in *;
        by eapply Hkeep.
Qed.

Lemma fold_process_fidelity files st :
  tag_fidelity st ->
  tag_fidelity (fold_left (process_file strptime) files st).
Proof.
  revert st. induction files as [|file files IH]; intros st Hinv; simpl;
    [done|].
  apply IH. by apply process_file_fidelity.
Qed.
End TagFidelity.

(** ** The loop over the rows of the frame *)

Lemma duration_loop_from (seq : str) (suf pre : list Event) (acc : Q) :
  (fold_left (duration_step (pre ++ suf) seq)
             (List.seq (length pre) (length suf)) acc
   == acc + gap_sum seq suf)%Q.
Proof.
  revert pre acc. induction suf as [|row rest IH]; intros pre acc.
  - simpl. ring.
  - cbn [length List.seq fold_left].
    replace (pre ++ row :: rest) with ((pre ++ [row]) ++ rest)
      by (by rewrite <- app_assoc).
    replace (S (length pre)) with (length (pre ++ [row]))
      by (rewrite length_app; simpl; lia).
    rewrite IH. clear IH.
    unfold duration_step.
    rewrite <- app_assoc. simpl.
    rewrite list_lookup_middle by done.
    destruct rest as [|next rest'].
    + replace (Z.of_nat (length pre) <? Z.of_nat (length (pre ++ [row])) - 1)
        with false
        by (symmetry; apply Z.ltb_ge; rewrite length_app; simpl; lia).
      rewrite andb_false_r. simpl. ring.
    + replace (Z.of_nat (length pre)
               <? Z.of_nat (length (pre ++ row :: next :: rest')) - 1)
        with true
        by (symmetry; apply Z.ltb_lt; rewrite length_app; simpl; lia).
      rewrite andb_true_r.
      replace (pre ++ row :: next :: rest')
        with ((pre ++ [row]) ++ next :: rest') by (by rewrite <- app_assoc).
      rewrite list_lookup_middle by (rewrite length_app; simpl; lia).
      cbn [gap_sum]. destruct (str_eqb (e_sequence row) seq); ring.
Qed.

Lemma duration_loop_gap_sum (seq : str) (df : list Event) :
  (fold_left (duration_step df seq) (List.seq 0 (length df)) 0
   == gap_sum seq df)%Q.
Proof.
  rewrite (duration_loop_from seq df [] 0%Q). ring.
Qed.

Lemma gap_sum_no_row (seq : str) (df : list Event) :
  seq_count df seq = 0%nat -> (gap_sum seq df == 0)%Q.
Proof.
  unfold seq_count. induction df as [|row rest IH]; simpl; [done|].
  destruct (str_eqb (e_sequence row) seq) eqn:E; simpl; [done|].
  intros H. destruct rest as [|next rest']; [done|].
  rewrite IH by done. ring.
Qed.

(** [stats[seq]['total_duration']] after the first loop. *)
Lemma total_duration0_gap_sum (seq : str) (df : list Event) :
  (total_duration0 (seq_stats0 df seq) == gap_sum seq df)%Q.
Proof.
  unfold seq_stats0. simpl.
  destruct (0 <? seq_count df seq)%nat eqn:E.
  - apply duration_loop_gap_sum.
  - apply Nat.ltb_ge in E. symmetry. apply gap_sum_no_row. lia.
Qed.

(** The last iteration of the loop leaves the total as it is. *)
Lemma duration_step_last (df : list Event) (seq : str) (total : Q) :
  duration_step df seq total (length df - 1) = total.
Proof.
  unfold duration_step. destruct (df !! (length df - 1)%nat); [|done].
  replace (Z.of_nat (length df - 1) <? Z.of_nat (length df) - 1) with false
    by (symmetry; apply Z.ltb_ge; lia).
  by rewrite andb_false_r.
Qed.

(** An earlier iteration adds the gap to the next row to the state of its
    own row. *)
Lemma duration_step_inner (df : list Event) (seq : str) (total : Q) i row next :
  df !! i = Some row -> df !! (i + 1)%nat = Some next ->
  duration_step df seq total i
  = if str_eqb (e_sequence row) seq
    then (total + minutes_between next row)%Q else total.
Proof.
  intros Hrow Hnext. unfold duration_step. rewrite Hrow, Hnext.
  apply lookup_lt_Some in Hnext.
  replace (Z.of_nat i <? Z.of_nat (length df) - 1) with true
    by (symmetry; apply Z.ltb_lt; lia).
  by rewrite andb_true_r.
Qed.

(** ** Reading the returned dictionary *)

Lemma find_keyed {V} (f : str -> V) (keys : list str) (seq : str) kv :
  List.find (fun kv : str * V => str_eqb kv.1 seq)
            (map (fun k => (k, f k)) keys) = Some kv ->
  seq ∈ keys /\ kv = (seq, f seq).
Proof.
  induction keys as [|k keys IH]; simpl; [done|].
  destruct (str_eqb k seq) eqn:E.
  - apply str_eqb_eq in E. subst k. intros [= <-]. split; [left|done].
  - intros [H1 H2]%IH. split; [by right|done].
Qed.

Lemma stats_get_inv sort_values (data : list Event) (seq : str) (s : StateStats) :
  stats_get (calculate_sequence_stats sort_values data) seq = Some s ->
  data <> [] /\ seq ∈ SEQS /\
  s = with_time_percentage
        (sum_total_duration
           (map (fun k => (k, seq_stats0 (sort_values data) k)) SEQS))
        (seq_stats0 (sort_values data) seq).
Proof.
  unfold stats_get, calculate_sequence_stats.
  destruct data as [|e data]; [done|].
  set (df := sort_values (e :: data)).
  set (total := sum_total_duration _).
  rewrite map_map. cbn [fst snd].
  intros H. apply fmap_Some in H as (kv & Hfind & ->).
  apply (find_keyed (fun k => with_time_percentage total (seq_stats0 df k)))
    in Hfind as [Hin ->].
  done.
Qed.

(** ** Gaps of a frame sorted by datetime *)

Lemma dt_le_trans : Transitive dt_le.
Proof. unfold dt_le. intros x y z. lia. Qed.

Lemma minutes_between_nonneg (next row : Event) :
  dt_le row next -> (0 <= minutes_between next row)%Q.
Proof.
  unfold dt_le, minutes_between, total_seconds. intros H.
  apply Qle_shift_div_l; [reflexivity|].
  rewrite Qmult_0_l. rewrite <- (Zle_Qle 0). lia.
Qed.

Lemma gap_sum_cons (seq : str) (row next : Event) (rest : list Event) :
  gap_sum seq (row :: next :: rest)
  = ((if str_eqb (e_sequence row) seq then minutes_between next row else 0)
     + gap_sum seq (next :: rest))%Q.
Proof. reflexivity. Qed.

Lemma gap_sum_nonneg (seq : str) (df : list Event) :
  Sorted dt_le df -> (0 <= gap_sum seq df)%Q.
Proof.
  induction 1 as [|row rest Hs IH Hhd]; [apply Qle_refl|].
  destruct Hhd as [|next rest' Hle]; [apply Qle_refl|].
  rewrite gap_sum_cons. destruct (str_eqb (e_sequence row) seq).
  - pose proof (minutes_between_nonneg next row Hle). lra.
  - lra.
Qed.

Lemma minutes_between_chain (a b c : Event) :
  (minutes_between b a + minutes_between c b == minutes_between c a)%Q.
Proof.
  unfold minutes_between, total_seconds, Z.sub.
  rewrite !inject_Z_plus, !inject_Z_opp. field.
Qed.

Lemma last_default_irrel {A} (l : list A) (x d d' : A) :
  List.last (x :: l) d = List.last (x :: l) d'.
Proof.
  revert x. induction l as [|y l IH]; intros x; [done|].
  change (List.last (y :: l) d = List.last (y :: l) d'). apply IH.
Qed.

Lemma last_cons_default {A} (l : list A) (x d : A) :
  List.last (x :: l) d = List.last l x.
Proof.
  destruct l as [|y l]; [done|].
  change (List.last (y :: l) d = List.last (y :: l) x).
  apply last_default_irrel.
Qed.

(** Evaluates the comparisons of two string literals in the goal. *)
Ltac eval_str_eqb :=
  repeat match goal with
  | |- context [str_eqb (py ?a) (py ?b)] =>
      let v := eval vm_compute in (str_eqb (py a) (py b)) in
      change (str_eqb (py a) (py b)) with v
  end.

Lemma known_state_cases (e : Event) :
  known_state e ->
  e_sequence e = py "00" \/ e_sequence e = py "01" \/ e_sequence e = py "02"
  \/ e_sequence e = py "03" \/ e_sequence e = py "04".
Proof.
  unfold known_state, SEQS. rewrite !elem_of_cons, elem_of_nil. tauto.
Qed.

(** The gaps of the five states together are the gap from the first row to
    the last one. *)
Lemma five_gap_sums (row : Event) (rest : list Event) :
  Forall known_state (row :: rest) ->
  (gap_sum (py "00") (row :: rest) + gap_sum (py "01") (row :: rest)
   + gap_sum (py "02") (row :: rest) + gap_sum (py "03") (row :: rest)
   + gap_sum (py "04") (row :: rest)
   == minutes_between (List.last rest row) row)%Q.
Proof.
  revert row. induction rest as [|next rest IH]; intros row Hall.
  - simpl. unfold minutes_between, total_seconds.
    rewrite Z.sub_diag. reflexivity.
  - apply Forall_cons in Hall as [Hrow Hall].
    specialize (IH next Hall).
    rewrite <- (minutes_between_chain row next (List.last (next :: rest) row)).
    rewrite (last_cons_default rest next row).
    rewrite <- IH. clear IH.
    rewrite !gap_sum_cons.
    destruct (known_state_cases row Hrow) as [-> | [-> | [-> | [-> | ->]]]];
      eval_str_eqb; cbv iota; ring.
Qed.

(** The rows of the five states together are all the rows. *)
Lemma five_counts (df : list Event) :
  Forall known_state df ->
  (seq_count df (py "00") + seq_count df (py "01") + seq_count df (py "02")
   + seq_count df (py "03") + seq_count df (py "04") = length df)%nat.
Proof.
  unfold seq_count. induction 1 as [|row rest Hrow Hall IH]; [done|].
  cbn [List.filter length]. rewrite <- IH.
  destruct (known_state_cases row Hrow) as [-> | [-> | [-> | [-> | ->]]]];
    eval_str_eqb; cbn [length]; lia.
Qed.

(** ** The earliest and the latest event *)

Lemma foldr_min_spec (f : Event -> Z) (init : Z) (l : list Event) :
  let m := foldr (fun x acc => Z.min (f x) acc) init l in
  m <= init /\ (forall x, x ∈ l -> m <= f x)
  /\ (m = init \/ exists x, x ∈ l /\ f x = m).
Proof.
  induction l as [|y l IH]; simpl.
  - split; [lia|]. split; [by intros x Hx; inv Hx|by left].
  - destruct IH as (H1 & H2 & H3). split; [lia|]. split.
    + intros x [->|Hx]%elem_of_cons; [lia|]. specialize (H2 x Hx). lia.
    + destruct (Z.min_spec (f y)
                  (foldr (fun x acc => Z.min (f x) acc) init l)) as [[_ ->]|[_ ->]].
      * right. exists y. split; [left|done].
      * destruct H3 as [H3|(x & Hx & Hfx)]; [by left|].
        right. exists x. split; [by right|done].
Qed.

Lemma foldr_max_spec (f : Event -> Z) (init : Z) (l : list Event) :
  let m := foldr (fun x acc => Z.max (f x) acc) init l in
  init <= m /\ (forall x, x ∈ l -> f x <= m)
  /\ (m = init \/ exists x, x ∈ l /\ f x = m).
Proof.
  induction l as [|y l IH]; simpl.
  - split; [lia|]. split; [by intros x Hx; inv Hx|by left].
  - destruct IH as (H1 & H2 & H3). split; [lia|]. split.
    + intros x [->|Hx]%elem_of_cons; [lia|]. specialize (H2 x Hx). lia.
    + destruct (Z.max_spec (f y)
                  (foldr (fun x acc => Z.max (f x) acc) init l)) as [[_ ->]|[_ ->]].
      * destruct H3 as [H3|(x & Hx & Hfx)]; [by left|].
        right. exists x. split; [by right|done].
      * right. exists y. split; [left|done].
Qed.

Lemma earliest_spec (data : list Event) :
  data <> [] ->
  (forall x, x ∈ data -> earliest data <= dt_seconds (e_datetime x))
  /\ exists x, x ∈ data /\ dt_seconds (e_datetime x) = earliest data.
Proof.
  destruct data as [|e rest]; [done|]. intros _. unfold earliest.
  destruct (foldr_min_spec (fun x => dt_seconds (e_datetime x))
              (dt_seconds (e_datetime e)) rest) as (H1 & H2 & H3).
  split.
  - intros x [->|Hx]%elem_of_cons; auto.
  - destruct H3 as [H3|(x & Hx & Hfx)].
    + exists e. split; [left|done].
    + exists x. split; [by right|done].
Qed.

Lemma latest_spec (data : list Event) :
  data <> [] ->
  (forall x, x ∈ data -> dt_seconds (e_datetime x) <= latest data)
  /\ exists x, x ∈ data /\ dt_seconds (e_datetime x) = latest data.
Proof.
  destruct data as [|e rest]; [done|]. intros _. unfold latest.
  destruct (foldr_max_spec (fun x => dt_seconds (e_datetime x))
              (dt_seconds (e_datetime e)) rest) as (H1 & H2 & H3).
  split.
  - intros x [->|Hx]%elem_of_cons; auto.
  - destruct H3 as [H3|(x & Hx & Hfx)].
    + exists e. split; [left|done].
    + exists x. split; [by right|done].
Qed.

Lemma sorted_last_max (row : Event) (rest : list Event) :
  StronglySorted dt_le (row :: rest) ->
  forall x, x ∈ row :: rest -> dt_le x (List.last rest row).
Proof.
  revert row. induction rest as [|next rest IH]; intros row Hs x Hx.
  - apply list_elem_of_singleton in Hx. subst. unfold dt_le. simpl. lia.
  - apply StronglySorted_cons in Hs as [Hrow Hs].
    rewrite (last_cons_default rest next row).
    apply elem_of_cons in Hx as [->|Hx]; [|by apply IH].
    eapply dt_le_trans; [|apply IH; [done|left]].
    by apply Forall_cons in Hrow as [Hrow _].
Qed.

Lemma last_elem_of (row : Event) (rest : list Event) :
  List.last rest row ∈ row :: rest.
Proof.
  revert row. induction rest as [|next rest IH]; intros row; [left|].
  right. rewrite (last_cons_default rest next row). apply IH.
Qed.

(** The first and the last row of a sorted frame are the earliest and the
    latest event of the data. *)
Lemma sorted_frame_span (data : list Event) (row : Event) (rest : list Event) :
  row :: rest ≡ₚ data -> Sorted dt_le (row :: rest) ->
  dt_seconds (e_datetime row) = earliest data
  /\ dt_seconds (e_datetime (List.last rest row)) = latest data.
Proof.
  intros Hperm Hs.
  assert (Hne : data <> []).
  { intros ->. by apply Permutation_nil_r in Hperm. }
  apply (Sorted_StronglySorted dt_le (Transitive0 := dt_le_trans)) in Hs.
  destruct (earliest_spec data Hne) as (Hmin & xmin & Hxmin & Hemin).
  destruct (latest_spec data Hne) as (Hmax & xmax & Hxmax & Hemax).
  pose proof (sorted_last_max row rest Hs) as Hlast.
  pose proof (StronglySorted_cons dt_le rest row) as Hc.
  apply Hc in Hs as [Hfirst _]. rewrite Forall_forall in Hfirst.
  split.
  - apply Z.le_antisymm.
    + rewrite <- Hemin. rewrite <- Hperm in Hxmin.
      apply elem_of_cons in Hxmin as [->|Hx]; [lia|]. by apply Hfirst.
    + apply Hmin. rewrite <- Hperm. left.
  - apply Z.le_antisymm.
    + apply Hmax. rewrite <- Hperm. apply last_elem_of.
    + rewrite <- Hemax. apply Hlast. by rewrite Hperm.
Qed.

(** ** The events in the order of the files *)

Lemma StronglySorted_sublist {A} (R : relation A) (l1 l2 : list A) :
  l1 `sublist_of` l2 -> StronglySorted R l2 -> StronglySorted R l1.
Proof.
  induction 1 as [|x l1 l2 Hsub IH|x l1 l2 Hsub IH]; intros Hs; [done|..].
  - apply StronglySorted_cons in Hs as [Hx Hs].
    constructor; [by apply IH|].
    rewrite Forall_forall in Hx |- *. intros y Hy. apply Hx.
    by eapply elem_of_sublist.
  - apply StronglySorted_cons in Hs as [_ Hs]. by apply IH.
Qed.

Section EventOrder.
Variable strptime : str -> option datetime.

(** A file leaves at most one event, under its own name. *)
Lemma process_file_all_data st file :
  all_data (process_file strptime st file) = all_data st
  \/ exists ev, all_data (process_file strptime st file) = all_data st ++ [ev]
                /\ e_filename ev = f_name file.
Proof.
  unfold process_file, try_file.
  destruct (truthy (strip (f_content file))); simpl; [|by left].
  destruct (split NL (strip (f_content file))) as [|line0 data_rows];
    simpl; [by left|].
  destruct (length (split COMMA line0) <? 4)%nat; simpl; [by left|].
  destruct (strptime (nth 0 (split COMMA line0) [])) as [d|].
  - destruct (scan_rows _ _ _ _ _ _ _) as [th [e|ids]]; simpl; [by left|].
    right. eexists. split; [done|done].
  - destruct (scan_rows _ _ _ _ _ _ _) as [th [e|ids]]; simpl; [by left|].
    destruct (dt st); simpl; [|by left].
    right. eexists. split; [done|done].
Qed.

Lemma fold_process_all_data files st :
  exists new,
    all_data (fold_left (process_file strptime) files st) = all_data st ++ new
    /\ map e_filename new `sublist_of` map f_name files.
Proof.
  revert st. induction files as [|file files IH]; intros st; simpl.
  - exists []. by rewrite app_nil_r.
  - destruct (IH (process_file strptime st file)) as (new & Hnew & Hsub).
    destruct (process_file_all_data st file) as [Heq|(ev & Heq & Hname)].
    + exists new. rewrite Hnew, Heq. split; [done|]. by apply sublist_cons.
    + exists (ev :: new). rewrite Hnew, Heq, <- app_assoc. split; [done|].
      simpl. rewrite Hname. by apply sublist_skip.
Qed.

(** The events come in the order of the sorted file names. *)
Lemma events_in_file_order files :
  map e_filename (all_data (parse_uploaded_files strptime files))
    `sublist_of` map f_name (sort_by_name files).
Proof.
  unfold parse_uploaded_files.
  destruct (fold_process_all_data (sort_by_name files) initial_state)
    as (new & -> & Hsub). done.
Qed.

Lemma events_sorted_by_filename files :
  StronglySorted str_le
    (map e_filename (all_data (parse_uploaded_files strptime files))).
Proof.
  eapply StronglySorted_sublist; [apply events_in_file_order|].
  apply StronglySorted_fmap with (R1 := name_le); [|apply sort_by_name_sorted].
  by intros x y.
Qed.
End EventOrder.

(** ** The stable sort by datetime is a [sort_values] *)

Lemma dt_ltb_asym x y : dt_ltb x y = true -> dt_ltb y x = false.
Proof. unfold dt_ltb. intros H%Z.ltb_lt. apply Z.ltb_ge. lia. Qed.

Lemma dt_ltb_le_trans x y z :
  dt_ltb y x = false -> dt_ltb z y = false -> dt_ltb z x = false.
Proof.
  unfold dt_ltb. intros H1%Z.ltb_ge H2%Z.ltb_ge. apply Z.ltb_ge. lia.
Qed.

Lemma sort_values_stable_sorts : sorts_by_datetime sort_values_stable.
Proof.
  intros data. split; [apply stable_sort_perm|].
  apply StronglySorted_Sorted.
  eapply StronglySorted_mono;
    [|apply (stable_sort_sorted dt_ltb dt_ltb_asym dt_ltb_le_trans)].
  intros x y. unfold le_of, dt_le, dt_ltb. by intros H%Z.ltb_ge.
Qed.

(** With pairwise distinct datetimes the sorted frame, and so the
    statistics, do not depend on the order of the events handed over. *)
Lemma stats_order_irrelevant sort_values (data data' : list Event) :
  sorts_by_datetime sort_values ->
  NoDup (map (fun e => dt_seconds (e_datetime e)) data) ->
  data' ≡ₚ data ->
  sort_values data' = sort_values data
  /\ calculate_sequence_stats sort_values data'
     = calculate_sequence_stats sort_values data.
Proof.
  intros Hsort Hnd Hperm.
  destruct (Hsort data) as [Hp Hs]. destruct (Hsort data') as [Hp' Hs'].
  assert (Heq : sort_values data' = sort_values data).
  { apply (Sorted_unique_strong dt_le (Transitive0 := dt_le_trans));
      [|done|done|by rewrite Hp, Hp'].
    intros x y Hx Hy Hxy Hyx. rewrite Hp', Hperm in Hx. rewrite Hp in Hy.
    apply (NoDup_map_inj (fun e => dt_seconds (e_datetime e)) data); auto.
    unfold dt_le in *. lia. }
  split; [done|]. unfold calculate_sequence_stats. rewrite Heq.
  destruct data as [|e data], data' as [|e' data']; try done.
  - by apply Permutation_nil_r in Hperm.
  - symmetry in Hperm. by apply Permutation_nil_r in Hperm.
Qed.

(** ** A header whose timestamp cannot be parsed *)

Section Unparseable.
Variable strptime : str -> option datetime.

(** While [dt] is unbound, a file with an unparseable timestamp raises
    [UnboundLocalError]: it leaves no event and a warning. *)
Lemma process_file_unparseable_unbound st file :
  blank file = false -> malformed_header file = false ->
  strptime (nth 0 (header_fields file) []) = None ->
  dt st = None ->
  all_data (process_file strptime st file) = all_data st
  /\ warnings (process_file strptime st file)
     = warnings st ++ [mk_warning (f_name file) UnboundLocalError].
Proof.
  unfold blank, malformed_header, header_fields, process_file, try_file.
  intros Hb Hm Hp Hdt. apply negb_false_iff in Hb. rewrite Hb in Hm |- *.
  simpl in *.
  destruct (split NL (strip (f_content file))) as [|line0 data_rows] eqn:Hs.
  { by apply split_nonempty in Hs. }
  simpl in *. rewrite Hm, Hp, Hdt.
  destruct (scan_rows _ None _ _ _ _ _) as [th r] eqn:Hr.
  destruct (scan_rows_unbound _ _ _ _ _ _ _ Hr) as [-> | ->]; done.
Qed.

(** Once [dt] is bound, the file leaves an event that shows the raw
    timestamp and carries the datetime of an earlier file. *)
Lemma process_file_unparseable_stale st file d :
  blank file = false -> malformed_header file = false ->
  strptime (nth 0 (header_fields file) []) = None ->
  dt st = Some d ->
  exists ev,
    all_data (process_file strptime st file) = all_data st ++ [ev]
    /\ e_filename ev = f_name file
    /\ e_timestamp ev = nth 0 (header_fields file) []
    /\ e_datetime ev = d
    /\ warnings (process_file strptime st file) = warnings st.
Proof.
  unfold blank, malformed_header, header_fields, process_file, try_file.
  intros Hb Hm Hp Hdt. apply negb_false_iff in Hb. rewrite Hb in Hm |- *.
  simpl in *.
  destruct (split NL (strip (f_content file))) as [|line0 data_rows] eqn:Hs.
  { by apply split_nonempty in Hs. }
  simpl in *. rewrite Hm, Hp, Hdt.
  destruct (scan_rows_bound (nth 0 (split COMMA line0) []) d
              (nth 3 (split COMMA line0) []) (f_name file) data_rows []
              (tag_histories st)) as (th & ids & ->).
  simpl. eexists. repeat split.
Qed.
End Unparseable.

(** ** The entries of the returned dictionary *)

Lemma Q_of_nat_add (a b : nat) : (Q_of_nat (a + b) == Q_of_nat a + Q_of_nat b)%Q.
Proof.
  unfold Q_of_nat. rewrite Nat2Z.inj_add, inject_Z_plus. reflexivity.
Qed.

Lemma stats_entries sort_values (data : list Event) kv :
  kv ∈ calculate_sequence_stats sort_values data ->
  exists total,
    kv = (kv.1, with_time_percentage total (seq_stats0 (sort_values data) kv.1)).
Proof.
  unfold calculate_sequence_stats. destruct data as [|e data]; [by inversion 1|].
  rewrite map_map. cbn [fst snd]. intros Hin.
  apply list_elem_of_In, in_map_iff in Hin as (seq & <- & _). cbn [fst]. eauto.
Qed.

Lemma stats_keys sort_values (data : list Event) :
  data <> [] -> map fst (calculate_sequence_stats sort_values data) = SEQS.
Proof.
  unfold calculate_sequence_stats. destruct data as [|e data]; [done|].
  intros _. rewrite !map_map. cbn [fst snd]. apply map_id.
Qed.

Lemma sorts_permutes sort_values : sorts_by_datetime sort_values -> permutes sort_values.
Proof. intros H data. apply H. Qed.

Lemma sum_duration_five sort_values (e : Event) (data : list Event) :
  let df := sort_values (e :: data) in
  (sum_duration (calculate_sequence_stats sort_values (e :: data))
   == gap_sum (py "00") df + gap_sum (py "01") df + gap_sum (py "02") df
      + gap_sum (py "03") df + gap_sum (py "04") df)%Q.
Proof.
  intros df. unfold sum_duration, calculate_sequence_stats, SEQS.
  cbn [map fold_left fst snd with_time_percentage total_duration].
  fold df. rewrite !total_duration0_gap_sum. ring.
Qed.

Lemma sum_percentage_five sort_values (e : Event) (data : list Event) :
  let df := sort_values (e :: data) in
  (sum_percentage (calculate_sequence_stats sort_values (e :: data))
   == percentage0 (seq_stats0 df (py "00")) + percentage0 (seq_stats0 df (py "01"))
      + percentage0 (seq_stats0 df (py "02")) + percentage0 (seq_stats0 df (py "03"))
      + percentage0 (seq_stats0 df (py "04")))%Q.
Proof.
  intros df. unfold sum_percentage, calculate_sequence_stats, SEQS.
  cbn [map fold_left fst snd with_time_percentage percentage].
  fold df. ring.
Qed.

Lemma sort_values_sorted_input sort_values (data : list Event) :
  sorts_by_datetime sort_values ->
  NoDup (map (fun e => dt_seconds (e_datetime e)) data) ->
  Sorted dt_le data -> sort_values data = data.
Proof.
  intros Hsort Hnd Hs. destruct (Hsort data) as [Hp Hs'].
  apply (Sorted_unique_strong dt_le (Transitive0 := dt_le_trans));
    [|done|done|done].
  intros x y Hx Hy Hxy Hyx. rewrite Hp in Hx.
  apply (NoDup_map_inj (fun e => dt_seconds (e_datetime e)) data); auto.
  unfold dt_le in *. lia.
Qed.

Example span_out_of_order :
  (inject_Z (latest events_out_of_order - earliest events_out_of_order) / 60
   == 10 # 60)%Q.
Proof. vm_compute. reflexivity. Qed.

(** ** The totals as sums of gaps, in the order of the frame *)

Lemma gaps_of_cons (seq : str) (row next : Event) (rest : list Event) :
  gaps_of seq (row :: next :: rest)
  = if str_eqb (e_sequence row) seq
    then minutes_between next row :: gaps_of seq (next :: rest)
    else gaps_of seq (next :: rest).
Proof. reflexivity. Qed.

(** The loop adds the gaps of the rows of its state, one after the other. *)
Lemma duration_loop_gaps_from (seq : str) (suf pre : list Event) (acc : Q) :
  fold_left (duration_step (pre ++ suf) seq)
            (List.seq (length pre) (length suf)) acc
  = fold_left Qplus (gaps_of seq suf) acc.
Proof.
  revert pre acc. induction suf as [|row rest IH]; intros pre acc; [done|].
  cbn [length List.seq fold_left].
  replace (pre ++ row :: rest) with ((pre ++ [row]) ++ rest)
    by (by rewrite <- app_assoc).
  replace (S (length pre)) with (length (pre ++ [row]))
    by (rewrite length_app; simpl; lia).
  rewrite IH. clear IH.
  unfold duration_step.
  rewrite <- app_assoc. simpl app.
  rewrite list_lookup_middle by done.
  destruct rest as [|next rest'].
  - replace (Z.of_nat (length pre) <? Z.of_nat (length (pre ++ [row])) - 1)
      with false
      by (symmetry; apply Z.ltb_ge; rewrite length_app; simpl; lia).
    by rewrite andb_false_r.
  - replace (Z.of_nat (length pre)
             <? Z.of_nat (length (pre ++ row :: next :: rest')) - 1)
      with true
      by (symmetry; apply Z.ltb_lt; rewrite length_app; simpl; lia).
    rewrite andb_true_r.
    replace (pre ++ row :: next :: rest')
      with ((pre ++ [row]) ++ next :: rest') by (by rewrite <- app_assoc).
    rewrite list_lookup_middle by (rewrite length_app; simpl; lia).
    rewrite gaps_of_cons. by destruct (str_eqb (e_sequence row) seq).
Qed.

Lemma gaps_of_no_row (seq : str) (df : list Event) :
  seq_count df seq = 0%nat -> gaps_of seq df = [].
Proof.
  unfold seq_count. induction df as [|row rest IH]; [done|].
  cbn [List.filter]. destruct (str_eqb (e_sequence row) seq) eqn:E; [done|].
  intros H. destruct rest as [|next rest']; [done|].
  rewrite gaps_of_cons, E. by apply IH.
Qed.

Lemma total_duration0_gaps (seq : str) (df : list Event) :
  total_duration0 (seq_stats0 df seq) = sum_in_order (gaps_of seq df).
Proof.
  unfold seq_stats0, sum_in_order. cbn [total_duration0].
  destruct (0 <? seq_count df seq)%nat eqn:E.
  - apply (duration_loop_gaps_from seq df [] 0%Q).
  - apply Nat.ltb_ge in E. rewrite gaps_of_no_row by lia. done.
Qed.

(** Every total returned is the sum of the gaps of its state in the frame. *)
Lemma stats_totals_gaps sort_values (data : list Event) :
  Forall (fun kv => total_duration kv.2
                    = sum_in_order (gaps_of kv.1 (sort_values data)))
         (calculate_sequence_stats sort_values data).
Proof.
  apply Forall_forall. intros kv Hkv.
  destruct (stats_entries _ _ _ Hkv) as [total ->]. cbn [fst snd].
  cbn [with_time_percentage total_duration]. apply total_duration0_gaps.
Qed.

Lemma gaps_of_nonneg (seq : str) (df : list Event) :
  Sorted dt_le df -> Forall (fun g => (0 <= g)%Q) (gaps_of seq df).
Proof.
  induction 1 as [|row rest Hs IH Hhd]; [constructor|].
  destruct Hhd as [|next rest' Hle]; [constructor|].
  rewrite gaps_of_cons. destruct (str_eqb (e_sequence row) seq); [|done].
  constructor; [by apply minutes_between_nonneg|done].
Qed.

(** Each row of the state but the last row of the frame adds one gap. *)
Lemma gaps_of_length (seq : str) (before : list Event) (final : Event) :
  length (gaps_of seq (before ++ [final])) = seq_count before seq.
Proof.
  unfold seq_count. induction before as [|row rest IH]; [done|].
  cbn [app List.filter]. destruct (rest ++ [final]) as [|next r] eqn:E.
  { by destruct rest. }
  rewrite gaps_of_cons.
  destruct (str_eqb (e_sequence row) seq); cbn [length]; by rewrite IH.
Qed.

(** The gaps do not depend on the state of the last row. *)
Lemma gaps_of_last_state (seq : str) (before : list Event) (e e' : Event) :
  e_datetime e = e_datetime e' ->
  gaps_of seq (before ++ [e]) = gaps_of seq (before ++ [e']).
Proof.
  intros Hdt. induction before as [|row rest IH]; [done|].
  destruct rest as [|next rest'].
  - cbn [app]. rewrite !gaps_of_cons. unfold minutes_between. by rewrite Hdt.
  - cbn [app] in *. rewrite !gaps_of_cons. by rewrite IH.
Qed.

Lemma stats_keys_match sort_values (data : list Event) :
  map fst (calculate_sequence_stats sort_values data)
  = match data with [] => [] | _ :: _ => SEQS end.
Proof.
  destruct data as [|e data]; [done|]. by apply stats_keys.
Qed.

(** * The claims *)

(** C1 (fails on the code).  The claim: a file whose header timestamp does
    not match the pattern still yields an event, with the raw string for
    display and an absent time value.  On the code, [dt] is not assigned
    when [strptime] raises.  A batch of the single file [a.csv] with the
    header [notadate,0001,6C,03] yields no event and one warning for
    [UnboundLocalError]; after a file that parsed, the same header yields an
    event that carries the datetime of that earlier file. *)
Theorem C1_unparseable_timestamp_unbound_dt :
  strptime_YmdHMS (py "notadate") = None
  /\ malformed_header (file_notadate "a.csv") = false
  /\ all_data (parse_uploaded_files strptime_YmdHMS [file_notadate "a.csv"]) = []
  /\ warnings (parse_uploaded_files strptime_YmdHMS [file_notadate "a.csv"])
     = [mk_warning (py "a.csv") UnboundLocalError]
  /\ all_data (parse_uploaded_files strptime_YmdHMS
                 [file_0534 "a.csv" "00"; file_notadate "b.csv"])
     = [mk_event (py "a.csv") (py "2025/02/18 08:05:34") dt_0534 (py "00")
          0 [] (py "20250218080534");
        mk_event (py "b.csv") (py "notadate") dt_0534 (py "03")
          0 [] (py "notadate")].
Proof. repeat split; vm_compute; reflexivity. Qed.

(** C2 (as stated, fails on the code): the durations would be derived in
    the order of the file names.  [a.csv] is ten seconds later than
    [b.csv]; the events come as [a.csv], [b.csv], the frame of the
    statistics is [b.csv], [a.csv], and state [00] of [a.csv] gets 0 minutes
    where the order of the file names gives it minus ten seconds. *)
Lemma C2_counterexample :
  map e_filename events_out_of_order = [py "a.csv"; py "b.csv"]
  /\ map e_filename (sort_values_stable events_out_of_order)
     = [py "b.csv"; py "a.csv"]
  /\ exists s,
       stats_get (calculate_sequence_stats sort_values_stable events_out_of_order)
                 (py "00") = Some s
       /\ (total_duration s == 0)%Q
       /\ (gap_sum (py "00") events_out_of_order == - (10 # 60))%Q
       /\ ~ (total_duration s == gap_sum (py "00") events_out_of_order)%Q.
Proof.
  split; [vm_compute; reflexivity|]. split; [vm_compute; reflexivity|].
  eexists. split; [vm_compute; reflexivity|].
  split; [vm_compute; reflexivity|]. split; [vm_compute; reflexivity|].
  vm_compute. discriminate.
Qed.

(** C2 (amended).  [parse_uploaded_files] returns the events in the order
    of the sorted file names and does not sort them by timestamp.
    [calculate_sequence_stats] sorts the events it is handed by datetime
    before it derives the durations: the total of a state is the sum of the
    gaps between rows that are adjacent in ascending order of datetime, none
    of which is negative, and not of the gaps between events adjacent in the
    order of the file names.  When the datetimes are pairwise distinct, the
    statistics are the same in whatever order the events are handed over. *)
Theorem C2_events_by_filename_stats_by_datetime
    (strptime : str -> option datetime) (files : list file_info)
    (sort_values : list Event -> list Event) :
  sorts_by_datetime sort_values ->
  let events := all_data (parse_uploaded_files strptime files) in
  let stats := calculate_sequence_stats sort_values events in
  map e_filename events `sublist_of` map f_name (sort_by_name files)
  /\ StronglySorted str_le (map e_filename events)
  /\ sort_values events ≡ₚ events
  /\ Sorted dt_le (sort_values events)
  /\ map fst stats = match events with [] => [] | _ :: _ => SEQS end
  /\ Forall (fun kv =>
               total_duration kv.2
               = sum_in_order (gaps_of kv.1 (sort_values events))
               /\ Forall (fun g => (0 <= g)%Q)
                         (gaps_of kv.1 (sort_values events)))
            stats
  /\ (NoDup (map (fun e => dt_seconds (e_datetime e)) events) ->
      forall data', data' ≡ₚ events ->
                    calculate_sequence_stats sort_values data' = stats).
Proof.
  intros Hsort events stats.
  destruct (Hsort events) as [Hperm Hs].
  split; [apply events_in_file_order|].
  split; [apply events_sorted_by_filename|].
  split; [done|]. split; [done|].
  split; [apply stats_keys_match|].
  split.
  - eapply Forall_impl; [apply stats_totals_gaps|].
    intros kv Hkv. split; [done|]. by apply gaps_of_nonneg.
  - intros Hnd data' Hperm'. by apply stats_order_irrelevant.
Qed.

Lemma C2_events_by_filename_stats_by_datetime_witness :
  sorts_by_datetime sort_values_stable
  /\ NoDup (map (fun e => dt_seconds (e_datetime e)) events_out_of_order)
  /\ rev events_out_of_order ≡ₚ events_out_of_order
  /\ Forall (fun kv =>
               total_duration kv.2
               = sum_in_order (gaps_of kv.1 (sort_values_stable events_out_of_order))
               /\ Forall (fun g => (0 <= g)%Q)
                         (gaps_of kv.1 (sort_values_stable events_out_of_order)))
            (calculate_sequence_stats sort_values_stable events_out_of_order)
  /\ calculate_sequence_stats sort_values_stable (rev events_out_of_order)
     = calculate_sequence_stats sort_values_stable events_out_of_order.
Proof.
  assert (Hnd : NoDup (map (fun e => dt_seconds (e_datetime e))
                           events_out_of_order)).
  { vm_compute. apply NoDup_cons. split; [|apply NoDup_singleton].
    intros H%list_elem_of_singleton. discriminate. }
  assert (Hperm : rev events_out_of_order ≡ₚ events_out_of_order).
  { symmetry. apply Permutation_rev. }
  pose proof (C2_events_by_filename_stats_by_datetime strptime_YmdHMS
                [file_0544 "a.csv" "00"; file_0534 "b.csv" "03"]
                sort_values_stable sort_values_stable_sorts)
    as (_ & _ & _ & _ & _ & Htotals & Hany).
  split; [exact sort_values_stable_sorts|]. split; [exact Hnd|].
  split; [exact Hperm|]. split; [exact Htotals|].
  exact (Hany Hnd (rev events_out_of_order) Hperm).
Defined.

(** C3 (as stated, fails on the code): a file with fewer than 4 header
    fields would leave a warning that names it.  The batch of the single
    file [bad.csv] with the content [a,b,c] leaves no warning at all. *)
Lemma C3_counterexample :
  malformed_header file_short = true
  /\ ~ exists w, w ∈ warnings (parse_uploaded_files strptime_YmdHMS [file_short])
                 /\ w_filename w = f_name file_short.
Proof.
  split; [reflexivity|]. intros (w & Hw & _).
  vm_compute in Hw. inversion Hw.
Qed.

(** C3 (amended).  A file whose content is not blank and whose first line
    has fewer than 4 comma-separated fields is skipped without a warning:
    the events, the tag histories and the warnings of the batch are those
    of the batch without this file. *)
Theorem C3_malformed_header_skipped_silently
    (strptime : str -> option datetime) (before after : list file_info)
    (file : file_info) :
  malformed_header file = true ->
  parse_uploaded_files strptime (before ++ file :: after)
  = parse_uploaded_files strptime (before ++ after).
Proof.
  intros Hmal.
  rewrite (parse_skip strptime malformed_header)
    by (intros; by apply process_file_malformed).
  symmetry.
  rewrite (parse_skip strptime malformed_header)
    by (intros; by apply process_file_malformed).
  f_equal. rewrite !List.filter_app. simpl. by rewrite Hmal.
Qed.

Lemma C3_malformed_header_skipped_silently_witness :
  malformed_header file_short = true
  /\ parse_uploaded_files strptime_YmdHMS
       ([file_0534 "a.csv" "00"] ++ file_short :: [file_0544 "c.csv" "03"])
     = parse_uploaded_files strptime_YmdHMS
         ([file_0534 "a.csv" "00"] ++ [file_0544 "c.csv" "03"]).
Proof.
  split; [reflexivity|].
  apply (C3_malformed_header_skipped_silently strptime_YmdHMS
           [file_0534 "a.csv" "00"] [file_0544 "c.csv" "03"] file_short).
  reflexivity.
Defined.

(** C4 (as stated, fails on the code): the percentages of events of the
    five states would add up to 100 for every list that is not empty.  The
    event of a file of state [05] counts for none of the five states, and
    the percentages add up to 0. *)
Lemma C4_counterexample :
  events_unknown_state <> []
  /\ (sum_percentage
        (calculate_sequence_stats sort_values_stable events_unknown_state) == 0)%Q
  /\ ~ (sum_percentage
          (calculate_sequence_stats sort_values_stable events_unknown_state)
        == 100)%Q.
Proof.
  split; [vm_compute; discriminate|]. split; [vm_compute; reflexivity|].
  vm_compute. discriminate.
Qed.

(** C4 (amended).  For every list of events that is not empty and whose
    events all have a state among 00, 01, 02, 03 and 04, the percentages of
    events of the five states add up to 100. *)
Theorem C4_percentages_add_up
    (sort_values : list Event -> list Event) (data : list Event) :
  permutes sort_values ->
  data <> [] ->
  Forall known_state data ->
  (sum_percentage (calculate_sequence_stats sort_values data) == 100)%Q.
Proof.
  intros Hperm Hne Hall. destruct data as [|e data]; [done|].
  rewrite sum_percentage_five.
  set (df := sort_values (e :: data)).
  assert (Hdf : Forall known_state df)
    by (by unfold df; rewrite (Hperm (e :: data))).
  assert (Hlen : (0 < length df)%nat).
  { unfold df. rewrite (Hperm (e :: data)). simpl. lia. }
  pose proof (five_counts df Hdf) as Hsum.
  unfold seq_stats0. cbn [percentage0].
  rewrite (proj2 (Nat.ltb_lt _ _) Hlen).
  assert (Hq : (Q_of_nat (seq_count df (py "00")) + Q_of_nat (seq_count df (py "01"))
                + Q_of_nat (seq_count df (py "02")) + Q_of_nat (seq_count df (py "03"))
                + Q_of_nat (seq_count df (py "04")) == Q_of_nat (length df))%Q).
  { rewrite <- Hsum, !Q_of_nat_add. reflexivity. }
  assert (Hnz : ~ (Q_of_nat (length df) == 0)%Q).
  { unfold Q_of_nat, Qeq. simpl. lia. }
  transitivity
    ((Q_of_nat (seq_count df (py "00")) + Q_of_nat (seq_count df (py "01"))
      + Q_of_nat (seq_count df (py "02")) + Q_of_nat (seq_count df (py "03"))
      + Q_of_nat (seq_count df (py "04"))) / Q_of_nat (length df) * 100)%Q.
  - field. exact Hnz.
  - rewrite Hq. field. exact Hnz.
Qed.

Lemma C4_percentages_add_up_witness :
  permutes sort_values_stable
  /\ events_out_of_order <> []
  /\ Forall known_state events_out_of_order
  /\ (sum_percentage
        (calculate_sequence_stats sort_values_stable events_out_of_order)
      == 100)%Q.
Proof.
  assert (Hperm : permutes sort_values_stable)
    by exact (sorts_permutes _ sort_values_stable_sorts).
  assert (Hne : events_out_of_order <> []) by (vm_compute; discriminate).
  assert (Hall : Forall known_state events_out_of_order).
  { vm_compute. repeat constructor. }
  split; [exact Hperm|]. split; [exact Hne|]. split; [exact Hall|].
  exact (C4_percentages_add_up sort_values_stable events_out_of_order
           Hperm Hne Hall).
Defined.

(** C5 (as stated, fails on the code): the final event of the list handed
    in would add no duration, and only the events before it would add the
    gap to the event that follows them in the list.  Of the events [a.csv]
    (08:05:44, state 00) and [b.csv] (08:05:34, state 03) the final one is
    [b.csv]; the list gives state 03 no gap, and the code gives it ten
    seconds, the gap from [b.csv] to [a.csv] in the order of the datetimes. *)
Lemma C5_counterexample :
  last events_out_of_order
  = Some (mk_event (py "b.csv") (py "2025/02/18 08:05:34") dt_0534 (py "03")
            0 [] (py "20250218080534"))
  /\ gaps_of (py "03") events_out_of_order = []
  /\ exists s,
       stats_get (calculate_sequence_stats sort_values_stable events_out_of_order)
                 (py "03") = Some s
       /\ (total_duration s == 10 # 60)%Q
       /\ ~ (total_duration s
             == sum_in_order (gaps_of (py "03") events_out_of_order))%Q.
Proof.
  split; [vm_compute; reflexivity|]. split; [vm_compute; reflexivity|].
  eexists. split; [vm_compute; reflexivity|].
  split; [vm_compute; reflexivity|]. vm_compute. discriminate.
Qed.

(** C5 (amended).  [calculate_sequence_stats] runs its loop on the events
    in ascending order of datetime (the frame that [sort_values] makes of
    the list handed in).  The final row of this frame adds no duration to
    any state: the total of a state is the sum, in the order of the frame,
    of one gap for each row of that state before the final row, the minutes
    from the row to the row that follows it.  When the list handed in is in
    ascending order of pairwise distinct datetimes, the frame is the list
    itself. *)
Theorem C5_last_row_adds_no_duration
    (sort_values : list Event -> list Event) (data : list Event) :
  sorts_by_datetime sort_values ->
  let frame := sort_values data in
  let stats := calculate_sequence_stats sort_values data in
  frame ≡ₚ data
  /\ Sorted dt_le frame
  /\ map fst stats = match data with [] => [] | _ :: _ => SEQS end
  /\ Forall (fun kv => total_duration kv.2 = sum_in_order (gaps_of kv.1 frame))
            stats
  /\ (forall (seq : str) (before : list Event) (final : Event),
        length (gaps_of seq (before ++ [final])) = seq_count before seq)
  /\ (forall (seq : str) (before : list Event) (final final' : Event),
        e_datetime final = e_datetime final' ->
        gaps_of seq (before ++ [final]) = gaps_of seq (before ++ [final']))
  /\ (forall (pre post : list Event) (row next : Event) (seq : str) (total : Q),
        duration_step (pre ++ row :: next :: post) seq total (length pre)
        = if str_eqb (e_sequence row) seq
          then (total + minutes_between next row)%Q else total)
  /\ (Sorted dt_le data ->
      NoDup (map (fun e => dt_seconds (e_datetime e)) data) ->
      frame = data).
Proof.
  intros Hsort frame stats. destruct (Hsort data) as [Hperm Hs].
  split; [done|]. split; [done|].
  split; [apply stats_keys_match|].
  split; [apply stats_totals_gaps|].
  split; [apply gaps_of_length|].
  split; [apply gaps_of_last_state|].
  split.
  - intros pre post row next seq total.
    apply duration_step_inner; [by apply list_lookup_middle|].
    replace (pre ++ row :: next :: post) with ((pre ++ [row]) ++ next :: post)
      by (by rewrite <- app_assoc).
    apply list_lookup_middle. rewrite length_app. simpl. lia.
  - intros Hsd Hnd. by apply sort_values_sorted_input.
Qed.

Lemma C5_last_row_adds_no_duration_witness :
  sorts_by_datetime sort_values_stable
  /\ sort_values_stable events_gaps_6_12 ≡ₚ events_gaps_6_12
  /\ map fst (calculate_sequence_stats sort_values_stable events_gaps_6_12)
     = SEQS
  /\ Forall (fun kv =>
               total_duration kv.2
               = sum_in_order
                   (gaps_of kv.1 (sort_values_stable events_gaps_6_12)))
            (calculate_sequence_stats sort_values_stable events_gaps_6_12).
Proof.
  pose proof (C5_last_row_adds_no_duration sort_values_stable events_gaps_6_12
                sort_values_stable_sorts)
    as (Hperm & _ & Hkeys & Htotals & _).
  split; [exact sort_values_stable_sorts|]. split; [exact Hperm|].
  split; [exact Hkeys|]. exact Htotals.
Defined.

(** C6.  For every event [e] that [parse_uploaded_files] returns and every
    tag [t] of [e], [tag_histories[t]] exists, is not empty and holds an
    entry with the timestamp, the datetime, the sequence state and the file
    name of [e]. *)
Theorem C6_tag_fidelity
    (strptime : str -> option datetime) (files : list file_info)
    (e : Event) (t : str) :
  e ∈ all_data (parse_uploaded_files strptime files) ->
  t ∈ e_tag_ids e ->
  exists hs,
    tag_histories (parse_uploaded_files strptime files) !! t = Some hs
    /\ hs <> []
    /\ exists h, h ∈ hs
         /\ h_timestamp h = e_timestamp e /\ h_datetime h = e_datetime e
         /\ h_sequence h = e_sequence e /\ h_filename h = e_filename e.
Proof.
  intros He Ht.
  assert (Hinv : tag_fidelity (parse_uploaded_files strptime files)).
  { apply fold_process_fidelity. by intros e' t' He'; inv He'. }
  destruct (Hinv e t He Ht) as (hs & Hhs & Hin).
  exists hs. split; [done|]. split; [by intros ->; inv Hin|].
  exists (entry_of e). by repeat split.
Qed.

Lemma C6_tag_fidelity_witness :
  let e := mk_event (py "t.csv") (py "2025/02/18 08:05:34") dt_0534 (py "03")
             2 [py "TAG1"; py "TAG2"] (py "20250218080534") in
  e ∈ all_data (parse_uploaded_files strptime_YmdHMS [file_tags])
  /\ py "TAG2" ∈ e_tag_ids e
  /\ exists hs,
       tag_histories (parse_uploaded_files strptime_YmdHMS [file_tags])
         !! py "TAG2" = Some hs
       /\ hs <> []
       /\ exists h, h ∈ hs
            /\ h_timestamp h = e_timestamp e /\ h_datetime h = e_datetime e
            /\ h_sequence h = e_sequence e /\ h_filename h = e_filename e.
Proof.
  intros e.
  assert (He : e ∈ all_data (parse_uploaded_files strptime_YmdHMS [file_tags])).
  { vm_compute. left. }
  assert (Ht : py "TAG2" ∈ e_tag_ids e).
  { vm_compute. right. left. }
  split; [exact He|]. split; [exact Ht|].
  exact (C6_tag_fidelity strptime_YmdHMS [file_tags] e (py "TAG2") He Ht).
Defined.

(** C7 (as stated, fails on the code): the result would not change under
    any permutation of the input list.  Two files of the same name are
    processed in the order in which they are supplied, and their events
    come in that order. *)
Lemma C7_counterexample :
  [file_0534 "a.csv" "00"; file_0544 "a.csv" "03"]
    ≡ₚ [file_0544 "a.csv" "03"; file_0534 "a.csv" "00"]
  /\ all_data (parse_uploaded_files strptime_YmdHMS
                 [file_0534 "a.csv" "00"; file_0544 "a.csv" "03"])
     <> all_data (parse_uploaded_files strptime_YmdHMS
                    [file_0544 "a.csv" "03"; file_0534 "a.csv" "00"]).
Proof.
  split; [apply Permutation_swap|]. vm_compute. discriminate.
Qed.

(** C7 (amended).  The files are processed in ascending lexicographic
    order of file name whatever the order in which they are supplied; when
    the file names are pairwise distinct, the final state (events, tag
    histories, warnings) is the same for every permutation of the input
    list. *)
Theorem C7_permutation_invariance
    (strptime : str -> option datetime) (files files' : list file_info) :
  NoDup (map f_name files) ->
  files ≡ₚ files' ->
  StronglySorted name_le (sort_by_name files')
  /\ sort_by_name files' ≡ₚ files'
  /\ sort_by_name files' = sort_by_name files
  /\ parse_uploaded_files strptime files' = parse_uploaded_files strptime files.
Proof.
  intros Hnd Hperm.
  split; [apply sort_by_name_sorted|]. split; [apply sort_by_name_perm|].
  assert (Heq : sort_by_name files' = sort_by_name files).
  { symmetry. by apply sort_by_name_unique. }
  split; [done|]. unfold parse_uploaded_files. by rewrite Heq.
Qed.

Lemma C7_permutation_invariance_witness :
  NoDup (map f_name [file_0534 "a.csv" "00"; file_0544 "b.csv" "03"])
  /\ [file_0534 "a.csv" "00"; file_0544 "b.csv" "03"]
       ≡ₚ [file_0544 "b.csv" "03"; file_0534 "a.csv" "00"]
  /\ parse_uploaded_files strptime_YmdHMS
       [file_0544 "b.csv" "03"; file_0534 "a.csv" "00"]
     = parse_uploaded_files strptime_YmdHMS
         [file_0534 "a.csv" "00"; file_0544 "b.csv" "03"].
Proof.
  assert (Hnd : NoDup (map f_name [file_0534 "a.csv" "00";
                                   file_0544 "b.csv" "03"])).
  { apply NoDup_cons. split; [|apply NoDup_singleton].
    intros H%list_elem_of_singleton. vm_compute in H. discriminate. }
  assert (Hperm : [file_0534 "a.csv" "00"; file_0544 "b.csv" "03"]
                    ≡ₚ [file_0544 "b.csv" "03"; file_0534 "a.csv" "00"])
    by apply Permutation_swap.
  split; [exact Hnd|]. split; [exact Hperm|].
  exact (proj2 (proj2 (proj2
    (C7_permutation_invariance strptime_YmdHMS _ _ Hnd Hperm)))).
Defined.

(** C8.  One file, of any name, whose whole content is the line of
    scenario A yields exactly one event, of state [02] and with no tag: the
    first line is read as the header only, and there is no data row.  No
    tag history and no warning is left. *)
Theorem C8_scenario_A_one_event_no_tag (name : str) :
  let st := parse_uploaded_files strptime_YmdHMS [mk_file name scenario_A] in
  all_data st
  = [mk_event name (py "2025/02/18 08:05:34") dt_0534 (py "02") 0 []
       (py "20250218080534")]
  /\ tag_histories st = ∅
  /\ warnings st = [].
Proof. repeat split; vm_compute; reflexivity. Qed.

(** C9.  [calculate_sequence_stats] sorts the events by datetime before it
    adds the gaps of adjacent rows, so the [total_duration] of every state
    it returns is not negative. *)
Theorem C9_total_duration_nonnegative
    (sort_values : list Event -> list Event) (data : list Event) :
  sorts_by_datetime sort_values ->
  Forall (fun kv => (0 <= total_duration kv.2)%Q)
         (calculate_sequence_stats sort_values data).
Proof.
  intros Hsort. apply Forall_forall. intros kv Hkv.
  destruct (stats_entries _ _ _ Hkv) as [total ->]. cbn [fst snd].
  cbn [with_time_percentage total_duration].
  rewrite total_duration0_gap_sum. apply gap_sum_nonneg. apply Hsort.
Qed.

Lemma C9_total_duration_nonnegative_witness :
  sorts_by_datetime sort_values_stable
  /\ Forall (fun kv => (0 <= total_duration kv.2)%Q)
            (calculate_sequence_stats sort_values_stable events_out_of_order).
Proof.
  split; [exact sort_values_stable_sorts|].
  exact (C9_total_duration_nonnegative sort_values_stable events_out_of_order
           sort_values_stable_sorts).
Defined.

(** C10 (as stated, fails on the code): the totals of the five states
    would add up to the span exactly.  The code adds doubles: with gaps of 6
    and 12 seconds the totals are 0.1 and 0.2 minutes and add up to
    0.30000000000000004, and the span of 18 seconds is 0.3 minutes. *)
Lemma C10_counterexample :
  events_gaps_6_12 <> []
  /\ Forall known_state events_gaps_6_12
  /\ Doubles.sum_duration
       (Doubles.calculate_sequence_stats sort_values_stable events_gaps_6_12)
     = 0x1.3333333333334p-2%float
  /\ Doubles.span_minutes events_gaps_6_12 = 0x1.3333333333333p-2%float
  /\ PrimFloat.eqb
       (Doubles.sum_duration
          (Doubles.calculate_sequence_stats sort_values_stable events_gaps_6_12))
       (Doubles.span_minutes events_gaps_6_12)
     = false.
Proof.
  split; [vm_compute; discriminate|].
  split; [vm_compute; repeat constructor|].
  repeat split; vm_compute; reflexivity.
Qed.

(** C10 (amended).  For every list of events that is not empty and whose
    events all have a state among 00, 01, 02, 03 and 04, the
    [total_duration] of the five states add up, within floating tolerance,
    to the minutes from the earliest to the latest datetime of the events:
    they add up to exactly that in exact arithmetic. *)
Theorem C10_durations_add_up_to_span
    (sort_values : list Event -> list Event) (data : list Event) :
  sorts_by_datetime sort_values ->
  data <> [] ->
  Forall known_state data ->
  (sum_duration (calculate_sequence_stats sort_values data)
   == inject_Z (latest data - earliest data) / 60)%Q.
Proof.
  intros Hsort Hne Hall. destruct data as [|e data]; [done|].
  rewrite sum_duration_five.
  destruct (Hsort (e :: data)) as [Hperm Hs].
  destruct (sort_values (e :: data)) as [|row rest] eqn:Hdf.
  { symmetry in Hperm. by apply Permutation_nil_r in Hperm. }
  rewrite five_gap_sums by (by rewrite Hperm).
  destruct (sorted_frame_span (e :: data) row rest Hperm Hs) as [<- <-].
  reflexivity.
Qed.

Lemma C10_durations_add_up_to_span_witness :
  sorts_by_datetime sort_values_stable
  /\ events_out_of_order <> []
  /\ Forall known_state events_out_of_order
  /\ (sum_duration
        (calculate_sequence_stats sort_values_stable events_out_of_order)
      == inject_Z (latest events_out_of_order - earliest events_out_of_order)
         / 60)%Q.
Proof.
  assert (Hne : events_out_of_order <> []) by (vm_compute; discriminate).
  assert (Hall : Forall known_state events_out_of_order).
  { vm_compute. repeat constructor. }
  split; [exact sort_values_stable_sorts|]. split; [exact Hne|].
  split; [exact Hall|].
  exact (C10_durations_add_up_to_span sort_values_stable events_out_of_order
           sort_values_stable_sorts Hne Hall).
Defined.

(** * Further properties of the code *)

(** ** get_sequence_info *)

Example pyu_label : pyu "待機中" = [24453; 27231; 20013]%N.
Proof. reflexivity. Qed.

Example pyu_unknown : pyu "不明" = [19981; 26126]%N.
Proof. reflexivity. Qed.

Lemma get_sequence_info_cases (seq : str) :
  (seq = py "00" \/ seq = py "01" \/ seq = py "02" \/ seq = py "03"
   \/ seq = py "04")
  \/ ((seq ∉ SEQS) /\ get_sequence_info seq = unknown_info).
Proof.
  destruct (decide (seq ∈ SEQS)) as [Hin|Hout].
  - left. unfold SEQS in Hin. rewrite !elem_of_cons, elem_of_nil in Hin. tauto.
  - right. split; [done|]. unfold get_sequence_info, sequence_map.
    rewrite (not_elem_of_list_to_map_1 _ seq); [done|]. exact Hout.
Qed.

(** A known state is assumed to be unknown. *)
Ltac known_unknown :=
  match goal with
  | H : py ?a ∉ SEQS |- _ =>
      solve [ exfalso; apply H; vm_compute;
              repeat first [ apply list_elem_of_here
                           | apply list_elem_of_further ] ]
  end.

(** X1.  [get_sequence_info] tells the states apart: two codes get the
    same label exactly when they are the same code or both are none of the
    five known codes, and likewise for the colour and the background
    colour. *)
Theorem get_sequence_info_distinguishes (s1 s2 : str) :
  (label (get_sequence_info s1) = label (get_sequence_info s2)
   <-> s1 = s2 \/ ((s1 ∉ SEQS) /\ (s2 ∉ SEQS)))
  /\ (color (get_sequence_info s1) = color (get_sequence_info s2)
      <-> s1 = s2 \/ ((s1 ∉ SEQS) /\ (s2 ∉ SEQS)))
  /\ (bg_color (get_sequence_info s1) = bg_color (get_sequence_info s2)
      <-> s1 = s2 \/ ((s1 ∉ SEQS) /\ (s2 ∉ SEQS))).
Proof.
  destruct (get_sequence_info_cases s1)
    as [[-> | [-> | [-> | [-> | ->]]]] | [Hout1 E1]];
  destruct (get_sequence_info_cases s2)
    as [[-> | [-> | [-> | [-> | ->]]]] | [Hout2 E2]];
  rewrite ?E1, ?E2; repeat split; intros H;
    try (left; reflexivity);
    try (right; split; assumption);
    try reflexivity;
    try (exfalso; vm_compute in H; discriminate H);
    try (destruct H as [H | [Hn1 Hn2]];
         [ first [ subst; rewrite ?E1, ?E2; reflexivity
                 | exfalso; vm_compute in H; discriminate H
                 | subst; known_unknown ]
         | first [ reflexivity | known_unknown ] ]).
Qed.

(** ** The tag views of main *)

(** X2.  The tag shown on a card is never longer than 20 characters; it is
    the tag itself exactly when the tag has at most 20 characters, and it
    always starts with the first 8 and ends with the last 8 characters of
    the tag. *)
Theorem display_tag_bounded (tag_id : str) :
  (length (display_tag tag_id) <= 20)%nat
  /\ (display_tag tag_id = tag_id <-> (length tag_id <= 20)%nat)
  /\ take 8 (display_tag tag_id) = take 8 tag_id
  /\ drop (length (display_tag tag_id) - 8) (display_tag tag_id)
     = drop (length tag_id - 8) tag_id.
Proof.
  unfold display_tag. destruct (20 <? length tag_id)%nat eqn:E.
  - apply Nat.ltb_lt in E.
    assert (Hlen : length (take 8 tag_id ++ py "..."
                           ++ drop (length tag_id - 8) tag_id) = 19%nat).
    { rewrite !length_app, length_take, length_drop.
      change (length (py "...")) with 3%nat. lia. }
    split; [lia|]. split.
    + split; [|lia]. intros H. rewrite H in Hlen. lia.
    + split.
      * rewrite take_app_le by (rewrite length_take; lia).
        apply take_take.
      * rewrite Hlen. rewrite app_assoc.
        rewrite drop_app_length'; [done|].
        rewrite length_app, length_take.
        change (length (py "...")) with 3%nat. lia.
  - apply Nat.ltb_ge in E. split; [lia|].
    split; [split; [intros _; lia|done]|]. by split.
Qed.

Lemma more_entries_asym x y : more_entries x y = true -> more_entries y x = false.
Proof.
  unfold more_entries. intros H%Nat.ltb_lt. apply Nat.ltb_ge. lia.
Qed.

Lemma more_entries_le_trans x y z :
  more_entries y x = false -> more_entries z y = false ->
  more_entries z x = false.
Proof.
  unfold more_entries. intros H1%Nat.ltb_ge H2%Nat.ltb_ge.
  apply Nat.ltb_ge. lia.
Qed.

(** X3.  The tag histories that main shows are at most five items of the
    dictionary, in descending order of the number of detections; every
    item left out has at most as many detections as every item shown. *)
Theorem top_tags_most_detected (items : list (str * list history_entry)) :
  length (top_tags items) = Nat.min 5 (length items)
  /\ StronglySorted (fun a b => (length b.2 <= length a.2)%nat) (top_tags items)
  /\ exists rest,
       top_tags items ++ rest ≡ₚ items
       /\ forall x y, x ∈ top_tags items -> y ∈ rest ->
            (length y.2 <= length x.2)%nat.
Proof.
  unfold top_tags, sorted_tags.
  pose proof (stable_sort_perm more_entries items) as Hperm.
  pose proof (stable_sort_sorted more_entries more_entries_asym
                more_entries_le_trans items) as Hs.
  assert (Hs' : StronglySorted (fun a b => (length b.2 <= length a.2)%nat)
                  (stable_sort more_entries items)).
  { eapply StronglySorted_mono; [|exact Hs].
    intros x y. unfold le_of, more_entries. by intros H%Nat.ltb_ge. }
  rewrite <- (take_drop 5 (stable_sort more_entries items)) in Hs', Hperm.
  split; [by rewrite length_take, (Permutation_length (stable_sort_perm _ items))|].
  split; [by eapply StronglySorted_app_1_l|].
  exists (drop 5 (stable_sort more_entries items)). split; [done|].
  intros x y Hx Hy.
  by apply (StronglySorted_app_1_elem_of _ _ _ x y Hs').
Qed.

(** ** The entries of the statistics *)

Lemma find_keyed_in {V} (f : str -> V) (keys : list str) (seq : str) :
  seq ∈ keys ->
  List.find (fun kv : str * V => str_eqb kv.1 seq)
            (map (fun k => (k, f k)) keys) = Some (seq, f seq).
Proof.
  induction keys as [|k keys IH]; simpl; [by inversion 1|].
  destruct (str_eqb k seq) eqn:E.
  - apply str_eqb_eq in E. by subst.
  - intros [->|Hin]%elem_of_cons; [by rewrite str_eqb_refl in E|]. by apply IH.
Qed.

Lemma stats_get_known sort_values (data : list Event) (seq : str) :
  data <> [] -> seq ∈ SEQS ->
  stats_get (calculate_sequence_stats sort_values data) seq
  = Some (with_time_percentage
            (sum_total_duration
               (map (fun k => (k, seq_stats0 (sort_values data) k)) SEQS))
            (seq_stats0 (sort_values data) seq)).
Proof.
  intros Hne Hin. unfold stats_get, calculate_sequence_stats.
  destruct data as [|e data]; [done|].
  rewrite map_map. cbn [fst snd].
  by rewrite (find_keyed_in
                (fun k => with_time_percentage _ (seq_stats0 _ k)) SEQS seq Hin).
Qed.

Lemma stats_get_unknown sort_values (data : list Event) (seq : str) :
  seq ∉ SEQS -> stats_get (calculate_sequence_stats sort_values data) seq = None.
Proof.
  intros Hout. destruct (stats_get _ seq) as [s|] eqn:E; [|done].
  apply stats_get_inv in E as (_ & Hin & _). done.
Qed.

Lemma seq_count_perm (df data : list Event) (seq : str) :
  df ≡ₚ data -> seq_count df seq = seq_count data seq.
Proof.
  unfold seq_count. induction 1 as [|x l l' _ IH|x y l|l l' l'' _ IH1 _ IH2];
    simpl; [done| | |congruence].
  - destruct (str_eqb (e_sequence x) seq); simpl; congruence.
  - destruct (str_eqb (e_sequence x) seq), (str_eqb (e_sequence y) seq); done.
Qed.

Lemma seq_count_le (df : list Event) (seq : str) :
  (seq_count df seq <= length df)%nat.
Proof.
  unfold seq_count. induction df as [|row df IH]; simpl; [done|].
  destruct (str_eqb (e_sequence row) seq); simpl; lia.
Qed.

Lemma seq_count_none (df : list Event) (seq : str) :
  Forall (fun e => e_sequence e <> seq) df -> seq_count df seq = 0%nat.
Proof.
  unfold seq_count. induction 1 as [|row df Hrow _ IH]; simpl; [done|].
  apply str_eqb_neq in Hrow. by rewrite Hrow.
Qed.

(** X4.  For a list of events that is not empty, the dictionary has an
    entry for each of the five states and for no other state; the [count]
    of a state is the number of events of the list with that state, in
    whatever order they come, and [percentage] is that count over the
    number of events, times 100. *)
Theorem stats_count_events
    (sort_values : list Event -> list Event) (data : list Event) (seq : str) :
  permutes sort_values ->
  data <> [] ->
  map fst (calculate_sequence_stats sort_values data) = SEQS
  /\ match stats_get (calculate_sequence_stats sort_values data) seq with
     | Some s =>
         seq ∈ SEQS
         /\ count s = seq_count data seq
         /\ (percentage s
             == Q_of_nat (seq_count data seq) / Q_of_nat (length data) * 100)%Q
     | None => seq ∉ SEQS
     end.
Proof.
  intros Hperm Hne. split; [by apply stats_keys|].
  destruct (decide (seq ∈ SEQS)) as [Hin|Hout].
  - rewrite stats_get_known by done. split; [done|].
    unfold with_time_percentage, seq_stats0. cbn [count0 percentage0 count percentage].
    rewrite (seq_count_perm _ data seq (Hperm data)).
    rewrite (Permutation_length (Hperm data)).
    split; [done|].
    destruct data as [|e data]; [done|]. simpl length. simpl Nat.ltb. reflexivity.
  - by rewrite stats_get_unknown.
Qed.

Lemma stats_count_events_witness :
  permutes sort_values_stable
  /\ events_out_of_order <> []
  /\ map fst (calculate_sequence_stats sort_values_stable events_out_of_order)
     = SEQS
  /\ match stats_get (calculate_sequence_stats sort_values_stable
                        events_out_of_order) (py "03") with
     | Some s =>
         py "03" ∈ SEQS
         /\ count s = seq_count events_out_of_order (py "03")
         /\ (percentage s
             == Q_of_nat (seq_count events_out_of_order (py "03"))
                / Q_of_nat (length events_out_of_order) * 100)%Q
     | None => py "03" ∉ SEQS
     end.
Proof.
  assert (Hperm : permutes sort_values_stable)
    by exact (sorts_permutes _ sort_values_stable_sorts).
  assert (Hne : events_out_of_order <> []) by (vm_compute; discriminate).
  split; [exact Hperm|]. split; [exact Hne|].
  exact (stats_count_events sort_values_stable events_out_of_order (py "03")
           Hperm Hne).
Defined.

(** The total time of the second loop is the sum of the totals returned. *)
Lemma sum_duration_total_time sort_values (e : Event) (data : list Event) :
  sum_duration (calculate_sequence_stats sort_values (e :: data))
  = sum_total_duration
      (map (fun k => (k, seq_stats0 (sort_values (e :: data)) k)) SEQS).
Proof. reflexivity. Qed.

(** X5.  In exact arithmetic, when the total time of the five states is
    positive their time percentages add up to 100, and otherwise every time
    percentage is 0; the doubles of the code add up to 100 within floating
    tolerance. *)
Theorem time_percentages_add_up
    (sort_values : list Event -> list Event) (data : list Event) :
  ((0 < sum_duration (calculate_sequence_stats sort_values data))%Q
   /\ (sum_time_percentage (calculate_sequence_stats sort_values data) == 100)%Q)
  \/ ((sum_duration (calculate_sequence_stats sort_values data) <= 0)%Q
      /\ Forall (fun kv => time_percentage kv.2 = 0%Q)
                (calculate_sequence_stats sort_values data)).
Proof.
  destruct data as [|e data].
  { right. split; [apply Qle_refl|constructor]. }
  rewrite sum_duration_total_time.
  unfold sum_time_percentage, calculate_sequence_stats.
  set (df := sort_values (e :: data)).
  set (T := sum_total_duration _).
  destruct (Qlt_le_dec 0 T) as [Hpos|Hle] eqn:Hdec.
  - left. split; [done|].
    assert (HT : (T == total_duration0 (seq_stats0 df (py "00"))
                      + total_duration0 (seq_stats0 df (py "01"))
                      + total_duration0 (seq_stats0 df (py "02"))
                      + total_duration0 (seq_stats0 df (py "03"))
                      + total_duration0 (seq_stats0 df (py "04")))%Q).
    { unfold T, sum_total_duration, SEQS. cbn [map fold_left fst snd]. ring. }
    unfold SEQS. cbn [map fold_left fst snd with_time_percentage time_percentage].
    rewrite Hdec.
    assert (Hnz : ~ (T == 0)%Q) by lra.
    transitivity
      ((total_duration0 (seq_stats0 df (py "00"))
        + total_duration0 (seq_stats0 df (py "01"))
        + total_duration0 (seq_stats0 df (py "02"))
        + total_duration0 (seq_stats0 df (py "03"))
        + total_duration0 (seq_stats0 df (py "04"))) / T * 100)%Q.
    + field. exact Hnz.
    + rewrite <- HT. field. exact Hnz.
  - right. split; [done|]. apply Forall_forall. intros kv Hkv.
    apply list_elem_of_In, in_map_iff in Hkv as (kv0 & <- & _).
    cbn [snd with_time_percentage time_percentage]. by rewrite Hdec.
Qed.

Lemma ratio_bounds (a b : Q) :
  (0 <= a)%Q -> (a <= b)%Q -> (0 < b)%Q ->
  (0 <= a / b * 100)%Q /\ (a / b * 100 <= 100)%Q.
Proof.
  intros Ha Hab Hb.
  assert (H0 : (0 <= a / b)%Q) by (apply Qle_shift_div_l; [done|lra]).
  assert (H1 : (a / b <= 1)%Q) by (apply Qle_shift_div_r; [done|lra]).
  set (x := (a / b)%Q) in *. lra.
Qed.

Lemma Q_of_nat_le (a b : nat) : (a <= b)%nat -> (Q_of_nat a <= Q_of_nat b)%Q.
Proof. intros H. unfold Q_of_nat. rewrite <- Zle_Qle. lia. Qed.

Lemma Q_of_nat_pos (a : nat) : (0 < a)%nat -> (0 < Q_of_nat a)%Q.
Proof. intros H. unfold Q_of_nat. rewrite <- (Zlt_Qlt 0). lia. Qed.

Lemma in_SEQS_00 : py "00" ∈ SEQS.
Proof. unfold SEQS. repeat first [apply list_elem_of_here | apply list_elem_of_further]. Qed.
Lemma in_SEQS_01 : py "01" ∈ SEQS.
Proof. unfold SEQS. repeat first [apply list_elem_of_here | apply list_elem_of_further]. Qed.
Lemma in_SEQS_02 : py "02" ∈ SEQS.
Proof. unfold SEQS. repeat first [apply list_elem_of_here | apply list_elem_of_further]. Qed.
Lemma in_SEQS_03 : py "03" ∈ SEQS.
Proof. unfold SEQS. repeat first [apply list_elem_of_here | apply list_elem_of_further]. Qed.
Lemma in_SEQS_04 : py "04" ∈ SEQS.
Proof. unfold SEQS. repeat first [apply list_elem_of_here | apply list_elem_of_further]. Qed.

(** The total time in terms of the gaps of the frame. *)
Lemma total_time_gap_sums (df : list Event) :
  (sum_total_duration (map (fun k => (k, seq_stats0 df k)) SEQS)
   == gap_sum (py "00") df + gap_sum (py "01") df + gap_sum (py "02") df
      + gap_sum (py "03") df + gap_sum (py "04") df)%Q.
Proof.
  unfold sum_total_duration, SEQS. cbn [map fold_left fst snd].
  rewrite !total_duration0_gap_sum. ring.
Qed.

Lemma gap_sum_le_total (df : list Event) (seq : str) :
  Sorted dt_le df -> seq ∈ SEQS ->
  (gap_sum seq df
   <= sum_total_duration (map (fun k => (k, seq_stats0 df k)) SEQS))%Q.
Proof.
  intros Hs Hin. rewrite total_time_gap_sums.
  pose proof (gap_sum_nonneg (py "00") df Hs).
  pose proof (gap_sum_nonneg (py "01") df Hs).
  pose proof (gap_sum_nonneg (py "02") df Hs).
  pose proof (gap_sum_nonneg (py "03") df Hs).
  pose proof (gap_sum_nonneg (py "04") df Hs).
  unfold SEQS in Hin. rewrite !elem_of_cons, elem_of_nil in Hin.
  destruct Hin as [-> | [-> | [-> | [-> | [-> | []]]]]]; lra.
Qed.

(** X6.  With the events sorted by datetime, every entry of the
    statistics is within its bounds: the percentage of events and the
    percentage of time lie between 0 and 100, the total of a state is at
    most the total of the five states, and the average is not negative. *)
Theorem stats_within_bounds
    (sort_values : list Event -> list Event) (data : list Event) :
  sorts_by_datetime sort_values ->
  Forall (fun kv =>
            (0 <= percentage kv.2)%Q /\ (percentage kv.2 <= 100)%Q
            /\ (total_duration kv.2
                <= sum_duration (calculate_sequence_stats sort_values data))%Q
            /\ (0 <= avg_duration kv.2)%Q
            /\ (0 <= time_percentage kv.2)%Q /\ (time_percentage kv.2 <= 100)%Q)
         (calculate_sequence_stats sort_values data).
Proof.
  intros Hsort. destruct data as [|e data]; [constructor|].
  rewrite sum_duration_total_time.
  unfold calculate_sequence_stats.
  destruct (Hsort (e :: data)) as [Hperm Hs].
  set (df := sort_values (e :: data)) in *.
  set (T := sum_total_duration _).
  apply Forall_forall. intros kv Hkv.
  apply list_elem_of_In, in_map_iff in Hkv as (kv0 & <- & Hkv0).
  apply in_map_iff in Hkv0 as (seq & <- & Hin%list_elem_of_In).
  cbn [fst snd with_time_percentage percentage total_duration avg_duration
       time_percentage].
  assert (Hlen : (0 < length df)%nat).
  { rewrite (Permutation_length Hperm). simpl. lia. }
  pose proof (total_duration0_gap_sum seq df) as Htd.
  pose proof (gap_sum_nonneg seq df Hs) as Hnn.
  pose proof (gap_sum_le_total df seq Hs Hin) as HleT. fold T in HleT.
  assert (Hpct : (0 <= percentage0 (seq_stats0 df seq))%Q
                 /\ (percentage0 (seq_stats0 df seq) <= 100)%Q).
  { unfold seq_stats0. cbn [percentage0].
    rewrite (proj2 (Nat.ltb_lt _ _) Hlen).
    apply ratio_bounds.
    - apply (Q_of_nat_le 0). lia.
    - apply Q_of_nat_le, seq_count_le.
    - by apply Q_of_nat_pos. }
  assert (Havg : (0 <= avg_duration0 (seq_stats0 df seq))%Q).
  { pose proof Htd as Htd'. unfold seq_stats0 in Htd' |- *.
    cbn [avg_duration0 total_duration0] in Htd' |- *.
    destruct (0 <? seq_count df seq)%nat eqn:Ec; [|apply Qle_refl].
    apply Qle_shift_div_l; [apply Q_of_nat_pos; by apply Nat.ltb_lt|].
    rewrite Htd'. lra. }
  destruct Hpct as [Hp0 Hp1].
  split; [done|]. split; [done|]. split; [by rewrite Htd|]. split; [done|].
  destruct (Qlt_le_dec 0 T) as [Hpos|Hnp]; [|split; lra].
  apply ratio_bounds; [by rewrite Htd|by rewrite Htd|done].
Qed.

Lemma stats_within_bounds_witness :
  sorts_by_datetime sort_values_stable
  /\ Forall (fun kv =>
            (0 <= percentage kv.2)%Q /\ (percentage kv.2 <= 100)%Q
            /\ (total_duration kv.2
                <= sum_duration (calculate_sequence_stats sort_values_stable
                                   events_out_of_order))%Q
            /\ (0 <= avg_duration kv.2)%Q
            /\ (0 <= time_percentage kv.2)%Q /\ (time_percentage kv.2 <= 100)%Q)
         (calculate_sequence_stats sort_values_stable events_out_of_order).
Proof.
  split; [exact sort_values_stable_sorts|].
  exact (stats_within_bounds sort_values_stable events_out_of_order
           sort_values_stable_sorts).
Defined.

(** A row counts for at most one of the five states. *)
Lemma five_indicators_le (s : str) (g : Q) :
  (0 <= g)%Q ->
  ((if str_eqb s (py "00") then g else 0) + (if str_eqb s (py "01") then g else 0)
   + (if str_eqb s (py "02") then g else 0) + (if str_eqb s (py "03") then g else 0)
   + (if str_eqb s (py "04") then g else 0) <= g)%Q.
Proof.
  intros Hg. destruct (decide (s ∈ SEQS)) as [Hin|Hout].
  - unfold SEQS in Hin. rewrite !elem_of_cons, elem_of_nil in Hin.
    destruct Hin as [-> | [-> | [-> | [-> | [-> | []]]]]];
      eval_str_eqb; cbv iota; lra.
  - assert (H : forall k, k ∈ SEQS -> str_eqb s k = false).
    { intros k Hk. apply str_eqb_neq. by intros ->. }
    rewrite (H _ in_SEQS_00), (H _ in_SEQS_01), (H _ in_SEQS_02),
      (H _ in_SEQS_03), (H _ in_SEQS_04). lra.
Qed.

Lemma five_gap_sums_le (row : Event) (rest : list Event) :
  Sorted dt_le (row :: rest) ->
  (gap_sum (py "00") (row :: rest) + gap_sum (py "01") (row :: rest)
   + gap_sum (py "02") (row :: rest) + gap_sum (py "03") (row :: rest)
   + gap_sum (py "04") (row :: rest)
   <= minutes_between (List.last rest row) row)%Q.
Proof.
  revert row. induction rest as [|next rest IH]; intros row Hs.
  - simpl. unfold minutes_between, total_seconds.
    rewrite Z.sub_diag. unfold Qle. simpl. lia.
  - apply Sorted_inv in Hs as [Hs Hhd]. apply HdRel_inv in Hhd.
    specialize (IH next Hs).
    rewrite <- (minutes_between_chain row next (List.last (next :: rest) row)).
    rewrite (last_cons_default rest next row).
    rewrite !gap_sum_cons.
    pose proof (five_indicators_le (e_sequence row) (minutes_between next row)
                  (minutes_between_nonneg next row Hhd)).
    lra.
Qed.

(** X7.  In exact arithmetic, with the events sorted by datetime, the
    totals of the five states add up to at most the minutes from the
    earliest to the latest datetime of the events, whatever the states of
    the events are; on the doubles of the code the bound holds within
    floating tolerance. *)
Theorem durations_within_span
    (sort_values : list Event -> list Event) (data : list Event) :
  sorts_by_datetime sort_values ->
  data <> [] ->
  (0 <= sum_duration (calculate_sequence_stats sort_values data))%Q
  /\ (sum_duration (calculate_sequence_stats sort_values data)
      <= inject_Z (latest data - earliest data) / 60)%Q.
Proof.
  intros Hsort Hne. destruct data as [|e data]; [done|].
  rewrite sum_duration_five.
  destruct (Hsort (e :: data)) as [Hperm Hs].
  destruct (sort_values (e :: data)) as [|row rest] eqn:Hdf.
  { symmetry in Hperm. by apply Permutation_nil_r in Hperm. }
  split.
  - pose proof (gap_sum_nonneg (py "00") _ Hs).
    pose proof (gap_sum_nonneg (py "01") _ Hs).
    pose proof (gap_sum_nonneg (py "02") _ Hs).
    pose proof (gap_sum_nonneg (py "03") _ Hs).
    pose proof (gap_sum_nonneg (py "04") _ Hs). lra.
  - destruct (sorted_frame_span (e :: data) row rest Hperm Hs) as [<- <-].
    by apply five_gap_sums_le.
Qed.

Lemma durations_within_span_witness :
  sorts_by_datetime sort_values_stable
  /\ events_unknown_gap <> []
  /\ (0 <= sum_duration
             (calculate_sequence_stats sort_values_stable events_unknown_gap))%Q
  /\ (sum_duration
        (calculate_sequence_stats sort_values_stable events_unknown_gap)
      <= inject_Z (latest events_unknown_gap - earliest events_unknown_gap)
         / 60)%Q.
Proof.
  assert (Hne : events_unknown_gap <> []) by (vm_compute; discriminate).
  split; [exact sort_values_stable_sorts|]. split; [exact Hne|].
  exact (durations_within_span sort_values_stable events_unknown_gap
           sort_values_stable_sorts Hne).
Defined.

Example durations_below_span :
  (sum_duration (calculate_sequence_stats sort_values_stable events_unknown_gap)
   == 10 # 60)%Q
  /\ (inject_Z (latest events_unknown_gap - earliest events_unknown_gap) / 60
      == 20 # 60)%Q.
Proof. split; vm_compute; reflexivity. Qed.

(** X8.  A state that no event of the list has gets an entry of zeros:
    no count, no percentage, no duration, no average and no share of the
    time. *)
Theorem absent_state_all_zero
    (sort_values : list Event -> list Event) (data : list Event) (seq : str) :
  permutes sort_values ->
  data <> [] ->
  seq ∈ SEQS ->
  Forall (fun e => e_sequence e <> seq) data ->
  exists s,
    stats_get (calculate_sequence_stats sort_values data) seq = Some s
    /\ count s = 0%nat
    /\ (percentage s == 0)%Q
    /\ total_duration s = 0%Q
    /\ avg_duration s = 0%Q
    /\ (time_percentage s == 0)%Q.
Proof.
  intros Hperm Hne Hin Hnone. eexists. split; [by apply stats_get_known|].
  assert (Hc : seq_count (sort_values data) seq = 0%nat).
  { rewrite (seq_count_perm _ data seq (Hperm data)). by apply seq_count_none. }
  unfold with_time_percentage, seq_stats0.
  cbn [count0 percentage0 total_duration0 avg_duration0
       count percentage total_duration avg_duration time_percentage].
  rewrite Hc. change (0 <? 0)%nat with false. cbv iota.
  split; [done|]. split.
  - destruct (0 <? length (sort_values data))%nat; [|reflexivity].
    change (Q_of_nat 0) with 0%Q. unfold Qdiv. ring.
  - split; [done|]. split; [done|].
    destruct (Qlt_le_dec 0 _); [|reflexivity]. unfold Qdiv. ring.
Qed.

Lemma absent_state_all_zero_witness :
  permutes sort_values_stable
  /\ events_out_of_order <> []
  /\ py "02" ∈ SEQS
  /\ Forall (fun e => e_sequence e <> py "02") events_out_of_order
  /\ exists s,
       stats_get (calculate_sequence_stats sort_values_stable events_out_of_order)
                 (py "02") = Some s
       /\ count s = 0%nat
       /\ (percentage s == 0)%Q
       /\ total_duration s = 0%Q
       /\ avg_duration s = 0%Q
       /\ (time_percentage s == 0)%Q.
Proof.
  assert (Hperm : permutes sort_values_stable)
    by exact (sorts_permutes _ sort_values_stable_sorts).
  assert (Hne : events_out_of_order <> []) by (vm_compute; discriminate).
  assert (Hnone : Forall (fun e => e_sequence e <> py "02") events_out_of_order).
  { vm_compute. repeat constructor; discriminate. }
  split; [exact Hperm|]. split; [exact Hne|]. split; [exact in_SEQS_02|].
  split; [exact Hnone|].
  exact (absent_state_all_zero sort_values_stable events_out_of_order (py "02")
           Hperm Hne in_SEQS_02 Hnone).
Defined.

(** ** The summary of main *)

Lemma get_total_duration_known sort_values (e : Event) (data : list Event) (seq : str) :
  seq ∈ SEQS ->
  get_total_duration (calculate_sequence_stats sort_values (e :: data)) seq
  = total_duration0 (seq_stats0 (sort_values (e :: data)) seq).
Proof.
  intros Hin. unfold get_total_duration. by rewrite stats_get_known.
Qed.

Lemma get_time_percentage_known sort_values (e : Event) (data : list Event) (seq : str) :
  seq ∈ SEQS ->
  get_time_percentage (calculate_sequence_stats sort_values (e :: data)) seq
  = time_percentage
      (with_time_percentage
         (sum_total_duration
            (map (fun k => (k, seq_stats0 (sort_values (e :: data)) k)) SEQS))
         (seq_stats0 (sort_values (e :: data)) seq)).
Proof.
  intros Hin. unfold get_time_percentage. by rewrite stats_get_known.
Qed.

(** X9.  In exact arithmetic, the working time (states 03 and 04), the
    waiting time (states 00 and 01) and the total of state 02 of the summary
    of main add up to the total time; on the doubles of the code they do so
    within floating tolerance. *)
Theorem summary_times_add_up
    (sort_values : list Event -> list Event) (data : list Event) :
  (working_time (calculate_sequence_stats sort_values data)
   + waiting_time (calculate_sequence_stats sort_values data)
   + get_total_duration (calculate_sequence_stats sort_values data) (py "02")
   == sum_duration (calculate_sequence_stats sort_values data))%Q.
Proof.
  destruct data as [|e data]; [reflexivity|].
  unfold working_time, waiting_time.
  rewrite !get_total_duration_known
    by first [exact in_SEQS_00 | exact in_SEQS_01 | exact in_SEQS_02
             | exact in_SEQS_03 | exact in_SEQS_04].
  rewrite sum_duration_five, !total_duration0_gap_sum. ring.
Qed.

(** X10.  In exact arithmetic, with the events sorted by datetime, the
    efficiency shown by main lies between 0 and 100, it is the sum of the
    time percentages of the states 03 and 04, and working and waiting time
    together are at most the total time; on the doubles of the code the
    equality and the last bound hold within floating tolerance. *)
Theorem efficiency_bounded
    (sort_values : list Event -> list Event) (data : list Event) :
  sorts_by_datetime sort_values ->
  (0 <= efficiency (calculate_sequence_stats sort_values data))%Q
  /\ (efficiency (calculate_sequence_stats sort_values data) <= 100)%Q
  /\ (efficiency (calculate_sequence_stats sort_values data)
      == get_time_percentage (calculate_sequence_stats sort_values data) (py "03")
         + get_time_percentage (calculate_sequence_stats sort_values data) (py "04"))%Q
  /\ (working_time (calculate_sequence_stats sort_values data)
      + waiting_time (calculate_sequence_stats sort_values data)
      <= sum_duration (calculate_sequence_stats sort_values data))%Q.
Proof.
  intros Hsort. destruct data as [|e data].
  { vm_compute. repeat split; discriminate. }
  destruct (Hsort (e :: data)) as [_ Hs].
  unfold efficiency, working_time, waiting_time.
  rewrite !get_total_duration_known, !get_time_percentage_known
    by first [exact in_SEQS_00 | exact in_SEQS_01 | exact in_SEQS_02
             | exact in_SEQS_03 | exact in_SEQS_04].
  rewrite sum_duration_total_time.
  set (df := sort_values (e :: data)) in *.
  pose proof (total_time_gap_sums df) as HT.
  set (T := sum_total_duration _) in *.
  pose proof (total_duration0_gap_sum (py "00") df) as H0.
  pose proof (total_duration0_gap_sum (py "01") df) as H1.
  pose proof (total_duration0_gap_sum (py "03") df) as H3.
  pose proof (total_duration0_gap_sum (py "04") df) as H4.
  pose proof (gap_sum_nonneg (py "00") df Hs).
  pose proof (gap_sum_nonneg (py "01") df Hs).
  pose proof (gap_sum_nonneg (py "02") df Hs).
  pose proof (gap_sum_nonneg (py "03") df Hs).
  pose proof (gap_sum_nonneg (py "04") df Hs).
  cbn [with_time_percentage time_percentage].
  destruct (Qlt_le_dec 0 T) as [Hpos|Hnp].
  - assert (Hb : (0 <= (total_duration0 (seq_stats0 df (py "03"))
                        + total_duration0 (seq_stats0 df (py "04"))) / T * 100)%Q
                 /\ ((total_duration0 (seq_stats0 df (py "03"))
                      + total_duration0 (seq_stats0 df (py "04"))) / T * 100
                     <= 100)%Q).
    { apply ratio_bounds; [lra|lra|done]. }
    destruct Hb as [Hb0 Hb1]. split; [done|]. split; [done|].
    split; [field; lra|lra].
  - split; [lra|]. split; [lra|]. split; [ring|lra].
Qed.

Lemma efficiency_bounded_witness :
  sorts_by_datetime sort_values_stable
  /\ (0 <= efficiency (calculate_sequence_stats sort_values_stable
                         events_out_of_order))%Q
  /\ (efficiency (calculate_sequence_stats sort_values_stable events_out_of_order)
      <= 100)%Q
  /\ (efficiency (calculate_sequence_stats sort_values_stable events_out_of_order)
      == get_time_percentage
           (calculate_sequence_stats sort_values_stable events_out_of_order)
           (py "03")
         + get_time_percentage
             (calculate_sequence_stats sort_values_stable events_out_of_order)
             (py "04"))%Q
  /\ (working_time (calculate_sequence_stats sort_values_stable events_out_of_order)
      + waiting_time (calculate_sequence_stats sort_values_stable events_out_of_order)
      <= sum_duration
           (calculate_sequence_stats sort_values_stable events_out_of_order))%Q.
Proof.
  split; [exact sort_values_stable_sorts|].
  exact (efficiency_bounded sort_values_stable events_out_of_order
           sort_values_stable_sorts).
Defined.

Example efficiency_out_of_order :
  (efficiency (calculate_sequence_stats sort_values_stable events_out_of_order)
   == 100)%Q.
Proof. vm_compute. reflexivity. Qed.

(** ** One file of the batch *)

(** [if tag_id not in tag_histories: tag_histories[tag_id] = []] leaves
    every history as it is. *)
Lemma create_lookup (th : gmap str (list history_entry)) (tag t : str) :
  default [] (match th !! tag with
              | None => <[tag := []]> th
              | Some _ => th
              end !! t)
  = default [] (th !! t).
Proof.
  destruct (th !! tag) eqn:E; [done|].
  destruct (decide (tag = t)) as [<-|Hne].
  - by rewrite lookup_insert_eq, E.
  - by rewrite lookup_insert_ne.
Qed.

(** The two statements on a tag of a row add one entry to its history. *)
Lemma record_lookup (th : gmap str (list history_entry)) (tag t : str)
    (entry : history_entry) :
  let th1 := match th !! tag with
             | None => <[tag := []]> th
             | Some _ => th
             end in
  default [] (<[tag := (th1 !!! tag) ++ [entry]]> th1 !! t)
  = default [] (th !! t) ++ (if str_eqb tag t then [entry] else []).
Proof.
  intros th1. destruct (decide (tag = t)) as [<-|Hne].
  - rewrite lookup_insert_eq, str_eqb_refl. simpl.
    rewrite lookup_total_alt. unfold th1. by rewrite create_lookup.
  - rewrite lookup_insert_ne by done. unfold th1. rewrite create_lookup.
    apply str_eqb_neq in Hne. rewrite Hne. by rewrite app_nil_r.
Qed.

Lemma record_is_Some (th : gmap str (list history_entry)) (tag t : str)
    (entry : history_entry) :
  let th1 := match th !! tag with
             | None => <[tag := []]> th
             | Some _ => th
             end in
  is_Some (<[tag := (th1 !!! tag) ++ [entry]]> th1 !! t)
  <-> t = tag \/ is_Some (th !! t).
Proof.
  intros th1. destruct (decide (tag = t)) as [<-|Hne].
  - rewrite lookup_insert_eq. split; [by left|by eexists].
  - rewrite lookup_insert_ne by done. unfold th1.
    destruct (th !! tag) eqn:E.
    + split; [by right|]. intros [->|H]; [done|exact H].
    + rewrite lookup_insert_ne by done.
      split; [by right|]. intros [->|H]; [done|exact H].
Qed.

(** With [dt] bound, the loop over the rows collects the tags of the rows
    in their order and appends one entry per tag to its history. *)
Lemma scan_rows_bound_spec ft d sequence filename data_rows tag_ids th :
  exists th',
    scan_rows ft (Some d) sequence filename data_rows tag_ids th
    = (th', inr (tag_ids ++ flat_map row_tag data_rows))
    /\ (forall t,
          default [] (th' !! t)
          = default [] (th !! t)
            ++ map (fun _ => mk_entry ft d sequence filename)
                   (List.filter (fun x => str_eqb x t)
                                (flat_map row_tag data_rows)))
    /\ (forall t, is_Some (th' !! t)
                  <-> t ∈ flat_map row_tag data_rows \/ is_Some (th !! t)).
Proof.
  revert tag_ids th.
  induction data_rows as [|row rest IH]; intros tag_ids th.
  - exists th. simpl. rewrite app_nil_r. split; [done|].
    split; [by intros t; rewrite app_nil_r|].
    intros t. split; [by right|]. intros [H|H]; [by inv H|done].
  - cbn [scan_rows flat_map]. unfold row_tag at 1 3 5.
    destruct (truthy (strip row)); [|apply IH].
    cbv zeta.
    destruct ((4 <? length (split COMMA row))%nat
              && truthy (nth 4 (split COMMA row) [])); [|apply IH].
    set (tag := remove_cr (nth 4 (split COMMA row) [])).
    set (th1 := match th !! tag with
                | None => <[tag := []]> th
                | Some _ => th
                end).
    set (entry := mk_entry ft d sequence filename).
    destruct (IH (tag_ids ++ [tag]) (<[tag := (th1 !!! tag) ++ [entry]]> th1))
      as (th' & Hscan & Hhist & Hdom).
    exists th'. split; [|split].
    + rewrite Hscan. by rewrite <- app_assoc.
    + intros t. rewrite Hhist. unfold th1. rewrite record_lookup.
      rewrite <- app_assoc. f_equal. simpl.
      fold entry. by destruct (str_eqb tag t).
    + intros t. rewrite Hdom. unfold th1. rewrite record_is_Some.
      simpl. rewrite elem_of_cons. tauto.
Qed.

(** With [dt] unbound, the loop leaves every history as it is. *)
Lemma scan_rows_unbound_hist ft sequence filename data_rows tag_ids th th' r :
  scan_rows ft None sequence filename data_rows tag_ids th = (th', r) ->
  forall t, default [] (th' !! t) = default [] (th !! t).
Proof.
  revert tag_ids th. induction data_rows as [|row rest IH]; intros tag_ids th.
  - simpl. by intros [= <- _].
  - simpl. destruct (truthy (strip row)); [|apply IH].
    destruct ((4 <? length (split COMMA row))%nat
              && truthy (nth 4 (split COMMA row) [])); [|apply IH].
    intros [= <- _] t. apply create_lookup.
Qed.

Section OneFile.
Variable strptime : str -> option datetime.

Lemma process_file_skipped st file :
  skipped file = true -> process_file strptime st file = st.
Proof.
  unfold skipped. intros [Hb|Hm]%orb_true_iff.
  - by apply process_file_blank.
  - by apply process_file_malformed.
Qed.

(** A file that is read leaves one event when [dt] is bound after its
    header, and one warning otherwise. *)
Lemma process_file_read st file :
  skipped file = false ->
  match match strptime (raw_timestamp_of file) with
        | Some d => Some d
        | None => dt st
        end with
  | Some d =>
      exists th' e,
        process_file strptime st file
        = mk_state (all_data st ++ [e]) th' (Some d) (warnings st)
        /\ event_of_file strptime e file
        /\ e_datetime e = d
        /\ (forall t, default [] (th' !! t)
                      = default [] (tag_histories st !! t) ++ entries_of t e)
        /\ (forall t, is_Some (th' !! t)
                      <-> t ∈ e_tag_ids e \/ is_Some (tag_histories st !! t))
  | None =>
      exists th',
        process_file strptime st file
        = mk_state (all_data st) th' None
            (warnings st ++ [mk_warning (f_name file) UnboundLocalError])
        /\ (forall t, default [] (th' !! t)
                      = default [] (tag_histories st !! t))
  end.
Proof.
  intros Hskip.
  assert (Hs := Hskip). unfold skipped in Hs.
  apply orb_false_iff in Hs as [Hb Hm].
  unfold event_of_file. rewrite Hskip.
  unfold blank in Hb. apply negb_false_iff in Hb.
  unfold malformed_header in Hm. rewrite Hb in Hm. simpl in Hm.
  unfold raw_timestamp_of, sequence_of, file_tag_ids, file_rows,
    header_fields in *.
  unfold process_file, try_file. rewrite Hb. simpl negb. cbv iota.
  destruct (split NL (strip (f_content file))) as [|line0 data_rows] eqn:Hsp.
  { by apply split_nonempty in Hsp. }
  simpl hd in *. simpl tl. rewrite Hm.
  destruct (strptime (nth 0 (split COMMA line0) [])) as [d|] eqn:Hp.
  - destruct (scan_rows_bound_spec (strftime d) d
                (nth 3 (split COMMA line0) []) (f_name file) data_rows []
                (tag_histories st)) as (th' & -> & Hhist & Hdom).
    simpl. eexists _, _. split; [reflexivity|]. simpl.
    repeat split; try done; apply Hdom.
  - destruct (dt st) as [d|] eqn:Hdt.
    + destruct (scan_rows_bound_spec (nth 0 (split COMMA line0) []) d
                  (nth 3 (split COMMA line0) []) (f_name file) data_rows []
                  (tag_histories st)) as (th' & -> & Hhist & Hdom).
      simpl. eexists _, _. split; [reflexivity|]. simpl.
      repeat split; try done; apply Hdom.
    + destruct (scan_rows _ None _ _ _ _ _) as [th' r] eqn:Hscan.
      pose proof (scan_rows_unbound_hist _ _ _ _ _ _ _ _ Hscan) as Hhist.
      destruct (scan_rows_unbound _ _ _ _ _ _ _ Hscan) as [-> | ->];
        simpl; by exists th'.
Qed.
End OneFile.

(** ** The batch *)

Lemma history_of_snoc (t : str) (events : list Event) (e : Event) :
  history_of t (events ++ [e]) = history_of t events ++ entries_of t e.
Proof.
  unfold history_of. rewrite flat_map_app. simpl. by rewrite app_nil_r.
Qed.

Lemma before_from_first_parse strptime (files : list file_info) :
  before_first_parse strptime files ++ from_first_parse strptime files = files.
Proof.
  induction files as [|file rest IH]; simpl; [done|].
  destruct (parses strptime file); simpl; [done|]. by rewrite IH.
Qed.

Lemma from_first_parse_nil strptime (files : list file_info) :
  from_first_parse strptime files = []
  <-> Forall (fun file => parses strptime file = false) files.
Proof.
  induction files as [|file rest IH]; simpl; [by split; [constructor|]|].
  destruct (parses strptime file) eqn:E.
  - split; [done|]. intros H. inv H. congruence.
  - rewrite IH. split; [by constructor|]. by intros H; inv H.
Qed.

Section Batch.
Variable strptime : str -> option datetime.

Lemma fold_history files st :
  (forall t, default [] (tag_histories st !! t) = history_of t (all_data st)) ->
  forall t,
    default [] (tag_histories (fold_left (process_file strptime) files st) !! t)
    = history_of t (all_data (fold_left (process_file strptime) files st)).
Proof.
  revert st. induction files as [|file files IH]; intros st Hinv; [done|].
  simpl. apply IH. intros t.
  destruct (skipped file) eqn:Hskip.
  { by rewrite process_file_skipped. }
  pose proof (process_file_read strptime st file Hskip) as Hread.
  destruct (match strptime (raw_timestamp_of file) with
            | Some d => Some d
            | None => dt st
            end) as [d|].
  - destruct Hread as (th' & e & -> & _ & _ & Hhist & _). simpl.
    by rewrite Hhist, Hinv, history_of_snoc.
  - destruct Hread as (th' & -> & Hhist). simpl. by rewrite Hhist.
Qed.

Lemma fold_tags_of_events files st :
  (warnings st = [] ->
   forall t, is_Some (tag_histories st !! t) ->
             exists e, e ∈ all_data st /\ t ∈ e_tag_ids e) ->
  warnings (fold_left (process_file strptime) files st) = [] ->
  forall t,
    is_Some (tag_histories (fold_left (process_file strptime) files st) !! t) ->
    exists e, e ∈ all_data (fold_left (process_file strptime) files st)
              /\ t ∈ e_tag_ids e.
Proof.
  revert st. induction files as [|file files IH]; intros st Hinv; [done|].
  simpl. apply IH.
  destruct (skipped file) eqn:Hskip.
  { by rewrite process_file_skipped. }
  pose proof (process_file_read strptime st file Hskip) as Hread.
  destruct (match strptime (raw_timestamp_of file) with
            | Some d => Some d
            | None => dt st
            end) as [d|].
  - destruct Hread as (th' & e & -> & _ & _ & _ & Hdom). simpl.
    intros Hw t [Ht|Ht]%Hdom.
    + exists e. split; [|done]. apply elem_of_app. right. left.
    + destruct (Hinv Hw t Ht) as (e' & He' & Ht').
      exists e'. split; [|done]. apply elem_of_app. by left.
  - destruct Hread as (th' & -> & _). simpl. intros Hw.
    by apply app_eq_nil in Hw as [_ Hw].
Qed.

(** Once [dt] is bound every file that is read leaves an event. *)
Lemma fold_bound files st d :
  dt st = Some d ->
  exists new,
    all_data (fold_left (process_file strptime) files st) = all_data st ++ new
    /\ warnings (fold_left (process_file strptime) files st) = warnings st
    /\ Forall2 (event_of_file strptime) new
               (List.filter (fun file => negb (skipped file)) files).
Proof.
  revert st d. induction files as [|file files IH]; intros st d Hdt.
  { exists []. simpl. by rewrite app_nil_r. }
  simpl. destruct (skipped file) eqn:Hskip.
  { rewrite process_file_skipped by done. simpl. by eapply IH. }
  pose proof (process_file_read strptime st file Hskip) as Hread.
  rewrite Hdt in Hread.
  destruct (match strptime (raw_timestamp_of file) with
            | Some d0 => Some d0
            | None => Some d
            end) as [d'|] eqn:Hd'; [|by destruct (strptime _)].
  destruct Hread as (th' & e & Hpf & Hev & _).
  destruct (IH (process_file strptime st file) d') as (new & Hall & Hw & Hf2).
  { by rewrite Hpf. }
  exists (e :: new). rewrite Hall, Hw, Hpf. simpl.
  rewrite <- app_assoc. split; [done|]. split; [done|]. by constructor.
Qed.

(** While [dt] is unbound every file that is read leaves a warning, up to
    the first file whose timestamp is parsed. *)
Lemma fold_unbound files st :
  dt st = None ->
  exists new,
    all_data (fold_left (process_file strptime) files st) = all_data st ++ new
    /\ warnings (fold_left (process_file strptime) files st)
       = warnings st
         ++ map (fun file => mk_warning (f_name file) UnboundLocalError)
                (before_first_parse strptime
                   (List.filter (fun file => negb (skipped file)) files))
    /\ Forall2 (event_of_file strptime) new
               (from_first_parse strptime
                  (List.filter (fun file => negb (skipped file)) files)).
Proof.
  revert st. induction files as [|file files IH]; intros st Hdt.
  { exists []. simpl. by rewrite !app_nil_r. }
  simpl. destruct (skipped file) eqn:Hskip.
  { rewrite process_file_skipped by done. simpl. by apply IH. }
  pose proof (process_file_read strptime st file Hskip) as Hread.
  rewrite Hdt in Hread. simpl. unfold parses. rewrite Hskip. simpl.
  destruct (strptime (raw_timestamp_of file)) as [d|] eqn:Hp.
  - destruct Hread as (th' & e & Hpf & Hev & _).
    destruct (fold_bound files (process_file strptime st file) d)
      as (new & Hall & Hw & Hf2).
    { by rewrite Hpf. }
    exists (e :: new). rewrite Hall, Hw, Hpf. simpl.
    rewrite <- app_assoc, app_nil_r. split; [done|]. split; [done|].
    by constructor.
  - destruct Hread as (th' & Hpf & _).
    destruct (IH (process_file strptime st file)) as (new & Hall & Hw & Hf2).
    { by rewrite Hpf. }
    exists new. rewrite Hall, Hw, Hpf. simpl.
    rewrite <- app_assoc. done.
Qed.

Lemma parse_split files :
  warnings (parse_uploaded_files strptime files)
  = map (fun file => mk_warning (f_name file) UnboundLocalError)
        (before_first_parse strptime (read_files files))
  /\ Forall2 (event_of_file strptime)
             (all_data (parse_uploaded_files strptime files))
             (from_first_parse strptime (read_files files)).
Proof.
  unfold parse_uploaded_files, read_files.
  destruct (fold_unbound (sort_by_name files) initial_state eq_refl)
    as (new & -> & -> & Hf2).
  done.
Qed.

Lemma read_files_perm files :
  read_files files ≡ₚ List.filter (fun file => negb (skipped file)) files.
Proof.
  unfold read_files, sort_by_name.
  rewrite (filter_stable_sort _ name_ltb_asym name_le_trans).
  apply stable_sort_perm.
Qed.

Lemma read_files_elem_of files file :
  file ∈ read_files files <-> file ∈ files /\ skipped file = false.
Proof.
  rewrite read_files_perm, list_elem_of_In, filter_In, <- list_elem_of_In.
  by rewrite negb_true_iff.
Qed.
End Batch.

Section Datetimes.
Variable strptime : str -> option datetime.

Lemma fold_datetimes (known : datetime -> Prop) files st :
  (forall d, dt st = Some d -> known d) ->
  (forall e, e ∈ all_data st -> known (e_datetime e)) ->
  (forall file d, file ∈ files -> skipped file = false ->
                  strptime (raw_timestamp_of file) = Some d -> known d) ->
  forall e, e ∈ all_data (fold_left (process_file strptime) files st) ->
            known (e_datetime e).
Proof.
  revert st. induction files as [|file files IH]; intros st Hdt Hall Hfiles;
    [done|].
  simpl.
  assert (Hrest : forall f d, f ∈ files -> skipped f = false ->
                    strptime (raw_timestamp_of f) = Some d -> known d).
  { intros f d Hf. apply Hfiles. by right. }
  destruct (skipped file) eqn:Hskip.
  { rewrite process_file_skipped by done. by apply IH. }
  pose proof (process_file_read strptime st file Hskip) as Hread.
  assert (Hk : forall d,
            match strptime (raw_timestamp_of file) with
            | Some d0 => Some d0
            | None => dt st
            end = Some d -> known d).
  { intros d. destruct (strptime (raw_timestamp_of file)) as [d0|] eqn:Hp.
    - intros [= <-]. eapply Hfiles; [left|done|done].
    - apply Hdt. }
  destruct (match strptime (raw_timestamp_of file) with
            | Some d => Some d
            | None => dt st
            end) as [d|].
  - destruct Hread as (th' & e & -> & _ & He & _).
    apply IH; simpl; [|intros e' [He'|He']%elem_of_app|done].
    + intros d' [= <-]. by apply Hk.
    + by apply Hall.
    + apply list_elem_of_singleton in He'. subst e'. rewrite He. by apply Hk.
  - destruct Hread as (th' & -> & _). apply IH; simpl; [done|done|done].
Qed.
End Datetimes.

(** ** Properties of parse_uploaded_files *)

(** X11.  A file whose content is blank is skipped without a warning: the
    events, the tag histories and the warnings of the batch are those of
    the batch without this file. *)
Theorem blank_file_skipped_silently
    (strptime : str -> option datetime) (before after : list file_info)
    (file : file_info) :
  blank file = true ->
  parse_uploaded_files strptime (before ++ file :: after)
  = parse_uploaded_files strptime (before ++ after).
Proof.
  intros Hblank.
  rewrite (parse_skip strptime blank)
    by (intros; by apply process_file_blank).
  symmetry.
  rewrite (parse_skip strptime blank)
    by (intros; by apply process_file_blank).
  f_equal. rewrite !List.filter_app. simpl. by rewrite Hblank.
Qed.

Lemma blank_file_skipped_silently_witness :
  blank (mk_file (py "b.csv") (py "   ")) = true
  /\ parse_uploaded_files strptime_YmdHMS
       ([file_0534 "a.csv" "00"] ++ mk_file (py "b.csv") (py "   ")
          :: [file_0544 "c.csv" "03"])
     = parse_uploaded_files strptime_YmdHMS
         ([file_0534 "a.csv" "00"] ++ [file_0544 "c.csv" "03"]).
Proof.
  split; [reflexivity|].
  apply (blank_file_skipped_silently strptime_YmdHMS
           [file_0534 "a.csv" "00"] [file_0544 "c.csv" "03"]
           (mk_file (py "b.csv") (py "   "))).
  reflexivity.
Defined.

(** X12.  The warnings of a batch are one [UnboundLocalError] warning, in
    the order of the file names, for each file that is read before the
    first file whose header timestamp is parsed; no other warning is
    shown. *)
Theorem warnings_before_first_parse
    (strptime : str -> option datetime) (files : list file_info) :
  warnings (parse_uploaded_files strptime files)
  = map (fun file => mk_warning (f_name file) UnboundLocalError)
        (before_first_parse strptime (read_files files)).
Proof. apply parse_split. Qed.

(** X13.  The events of a batch are, one for one and in the order of the
    file names, the files that are read from the first file whose header
    timestamp is parsed: each event has the name, the raw timestamp, the
    state and the tags of its file, [tag_count] is the number of these
    tags, and [timestamp] is the formatted datetime when the timestamp is
    parsed and the raw timestamp otherwise. *)
Theorem events_from_first_parse
    (strptime : str -> option datetime) (files : list file_info) :
  Forall2 (event_of_file strptime)
          (all_data (parse_uploaded_files strptime files))
          (from_first_parse strptime (read_files files)).
Proof. apply parse_split. Qed.

(** X14.  A batch yields no event exactly when no file of it is read with
    a header timestamp that is parsed. *)
Theorem no_event_iff_no_parse
    (strptime : str -> option datetime) (files : list file_info) :
  all_data (parse_uploaded_files strptime files) = []
  <-> forall file, file ∈ files -> parses strptime file = false.
Proof.
  destruct (parse_split strptime files) as [_ Hf2].
  rewrite <- Forall_forall.
  transitivity (from_first_parse strptime (read_files files) = []).
  - split; intros H; rewrite H in Hf2; by inv Hf2.
  - rewrite from_first_parse_nil, !Forall_forall. split.
    + intros H file Hin. destruct (skipped file) eqn:Hskip.
      * unfold parses. by rewrite Hskip.
      * apply H, read_files_elem_of. done.
    + intros H file [Hin _]%read_files_elem_of. by apply H.
Qed.

(** X15.  Every file that is neither blank nor short of header fields
    leaves either one event or one warning: the events and the warnings
    together are as many as these files. *)
Theorem events_and_warnings_count
    (strptime : str -> option datetime) (files : list file_info) :
  (length (all_data (parse_uploaded_files strptime files))
   + length (warnings (parse_uploaded_files strptime files))
   = length (List.filter (fun file => negb (skipped file)) files))%nat.
Proof.
  destruct (parse_split strptime files) as [-> Hf2].
  rewrite (Forall2_length _ _ _ Hf2), length_map.
  rewrite <- (Permutation_length (read_files_perm files)).
  rewrite <- (before_from_first_parse strptime (read_files files)) at 3.
  rewrite length_app. lia.
Qed.

(** X16.  The history of a tag holds exactly one entry for each occurrence
    of the tag in an event, in the order of the events: no entry belongs
    to a file that left no event. *)
Theorem tag_history_exact
    (strptime : str -> option datetime) (files : list file_info) (t : str) :
  default [] (tag_histories (parse_uploaded_files strptime files) !! t)
  = history_of t (all_data (parse_uploaded_files strptime files)).
Proof. by apply fold_history. Qed.

(** X17.  When the batch shows no warning, the tags that [tag_histories]
    has are exactly the tags of the events. *)
Theorem tags_are_tags_of_events
    (strptime : str -> option datetime) (files : list file_info) (t : str) :
  warnings (parse_uploaded_files strptime files) = [] ->
  is_Some (tag_histories (parse_uploaded_files strptime files) !! t)
  <-> exists e, e ∈ all_data (parse_uploaded_files strptime files)
                /\ t ∈ e_tag_ids e.
Proof.
  intros Hw. split.
  - apply fold_tags_of_events; [|done]. simpl. intros _ t' Ht.
    rewrite lookup_empty in Ht. by destruct Ht.
  - intros (e & He & Ht).
    assert (Hinv : tag_fidelity (parse_uploaded_files strptime files)).
    { apply fold_process_fidelity. by intros e' t' He'; inv He'. }
    destruct (Hinv e t He Ht) as (hs & Hhs & _). by eexists.
Qed.

Lemma tags_are_tags_of_events_witness :
  warnings (parse_uploaded_files strptime_YmdHMS [file_tags]) = []
  /\ (is_Some (tag_histories (parse_uploaded_files strptime_YmdHMS [file_tags])
                 !! py "TAG1")
      <-> exists e, e ∈ all_data (parse_uploaded_files strptime_YmdHMS [file_tags])
                    /\ py "TAG1" ∈ e_tag_ids e).
Proof.
  assert (Hw : warnings (parse_uploaded_files strptime_YmdHMS [file_tags]) = [])
    by reflexivity.
  split; [exact Hw|].
  exact (tags_are_tags_of_events strptime_YmdHMS [file_tags] (py "TAG1") Hw).
Defined.

(** X18.  The datetime of every event is the parsed header timestamp of a
    file of the batch that is read: of its own file, or of another one when
    its own timestamp is not parsed. *)
Theorem event_datetime_from_batch
    (strptime : str -> option datetime) (files : list file_info) (e : Event) :
  e ∈ all_data (parse_uploaded_files strptime files) ->
  exists file,
    file ∈ files /\ skipped file = false
    /\ strptime (raw_timestamp_of file) = Some (e_datetime e).
Proof.
  unfold parse_uploaded_files.
  apply (fold_datetimes strptime
           (fun d => exists file, file ∈ files /\ skipped file = false
                                  /\ strptime (raw_timestamp_of file) = Some d)).
  - by intros d.
  - by intros e' He'; inv He'.
  - intros file d Hin Hskip Hp. exists file. split; [|done].
    by rewrite <- (sort_by_name_perm files).
Qed.

Lemma event_datetime_from_batch_witness :
  let files := [file_0534 "a.csv" "00"; file_notadate "b.csv"] in
  let e := mk_event (py "b.csv") (py "notadate") dt_0534 (py "03")
             0 [] (py "notadate") in
  e ∈ all_data (parse_uploaded_files strptime_YmdHMS files)
  /\ exists file,
       file ∈ files /\ skipped file = false
       /\ strptime_YmdHMS (raw_timestamp_of file) = Some (e_datetime e).
Proof.
  intros files e.
  assert (He : e ∈ all_data (parse_uploaded_files strptime_YmdHMS files)).
  { vm_compute. right. left. }
  split; [exact He|].
  exact (event_datetime_from_batch strptime_YmdHMS files e He).
Defined.

(** ** The current status of main *)

Lemma sorted_last_greatest {A} (R : relation A) (l : list A) (x : A) :
  StronglySorted R l -> last l = Some x ->
  forall y, y ∈ l -> y = x \/ R y x.
Proof.
  induction 1 as [|z l Hs IH Hz]; [done|].
  intros Hlast y Hy. destruct l as [|z' l'].
  - simpl in Hlast. injection Hlast as <-.
    apply list_elem_of_singleton in Hy. by left.
  - change (last (z' :: l') = Some x) in Hlast.
    apply elem_of_cons in Hy as [->|Hy]; [|by apply IH].
    right. rewrite Forall_forall in Hz. apply Hz.
    by eapply last_Some_elem_of.
Qed.

(** X19.  The event that main shows as the current status ([data[-1]])
    is the event with the greatest file name: the file name of no event of
    the batch comes after it.  There is none exactly when the batch left no
    event, and the state shown is then [00]. *)
Theorem current_status_of_last_file_name
    (strptime : str -> option datetime) (files : list file_info) :
  match latest_event (all_data (parse_uploaded_files strptime files)) with
  | Some current =>
      current_seq (all_data (parse_uploaded_files strptime files))
      = e_sequence current
      /\ forall e, e ∈ all_data (parse_uploaded_files strptime files) ->
                   str_le (e_filename e) (e_filename current)
  | None =>
      all_data (parse_uploaded_files strptime files) = []
      /\ current_seq (all_data (parse_uploaded_files strptime files)) = py "00"
  end.
Proof.
  unfold current_seq, latest_event.
  pose proof (events_sorted_by_filename strptime files) as Hs.
  destruct (last (all_data (parse_uploaded_files strptime files)))
    as [current|] eqn:Hlast.
  - split; [done|]. intros e He.
    assert (Hl : last (map e_filename
                         (all_data (parse_uploaded_files strptime files)))
                 = Some (e_filename current)).
    { change (map e_filename ?l) with (e_filename <$> l).
      by rewrite fmap_last, Hlast. }
    destruct (sorted_last_greatest str_le _ _ Hs Hl (e_filename e)) as [->|H].
    + change (map e_filename ?l) with (e_filename <$> l).
      by apply list_elem_of_fmap_2.
    + unfold str_le. by rewrite str_compare_refl.
    + done.
  - apply last_None in Hlast. by rewrite Hlast.
Qed.

Example current_status_not_latest_datetime :
  latest_event events_out_of_order
  = Some (mk_event (py "b.csv") (py "2025/02/18 08:05:34") dt_0534 (py "03")
            0 [] (py "20250218080534"))
  /\ latest events_out_of_order = dt_seconds dt_0544.
Proof. split; vm_compute; reflexivity. Qed.

(** ** The statistics on doubles *)

(** On doubles the totals of gaps of 6 and 12 seconds are 0.1 and 0.2
    minutes; their time percentages add up to 99.99999999999999, which is
    100 within a tolerance of 2^-40. *)
Example doubles_time_percentages :
  PrimFloat.eqb
    (Doubles.sum_time_percentage
       (Doubles.calculate_sequence_stats sort_values_stable events_gaps_6_12))
    100 = false
  /\ PrimFloat.ltb
       (PrimFloat.abs
          (Doubles.sum_time_percentage
             (Doubles.calculate_sequence_stats sort_values_stable
                events_gaps_6_12) - 100))
       0x1p-40 = true.
Proof. split; vm_compute; reflexivity. Qed.

(** The totals on doubles are the roundings of the exact totals. *)
Example doubles_totals :
  map (fun kv => Doubles.total_duration kv.2)
      (Doubles.calculate_sequence_stats sort_values_stable events_gaps_6_12)
  = [0x1.999999999999ap-4; 0x1.999999999999ap-3; 0; 0; 0]%float
  /\ map (fun kv => total_duration kv.2)
         (calculate_sequence_stats sort_values_stable events_gaps_6_12)
     = [6 # 60; 12 # 60; 0; 0; 0]%Q.
Proof. split; vm_compute; reflexivity. Qed.
